(** * Gymnasium: the JAX conversion layer and the clip / flatten wrappers

    A shallow embedding of
      - [gymnasium/envs/phys2d/conversion.py]  ([JaxEnv], [_convert_jax_to_numpy]),
      - [gymnasium/wrappers/clip_action.py]     ([_ClipAction], [_VectorClipAction]),
      - [gymnasium/wrappers/flatten_observation.py]
                                                ([_FlattenObservation], [_VectorFlattenObservation]),
    together with the properties of these programs.

    Conventions.  An array is a floating-point array: a shape and its
    row-major entries, each of them NaN, an infinity or a number.  Numbers
    are rationals ([Q]), of which the floats are a part; clamping only
    compares and selects entries, so it rounds nothing.  Integer arrays are
    not represented; a Python integer turned into an array is rounded to
    binary64 as NumPy does when it meets floating-point bounds.  Python values
    that travel through the adapter live in the inductive [pyval]; a raised
    exception is an [Err] result carrying the exception and, for f-string
    messages, the fragments the message is assembled from. *)

From Stdlib Require Import String Bool Arith ZArith QArith SpecFloat Lia List.
Import ListNotations.

Set Implicit Arguments.
Set Warnings "-register-all".

(* ===================================================================== *)
(** ** Arrays and Python values                                           *)
(* ===================================================================== *)

(** An entry of a floating-point array. *)
Inductive entry : Type :=
| NaN
| NegInf
| Num (q : Q)
| PosInf.

Coercion Num : Q >-> entry.

(** A list literal takes its element type from where it stands, so that
    numbers written in a list of entries are read as entries. *)
Arguments cons {A} & a l.

(** [x <= y] on entries; every comparison with NaN is false. *)
Definition entry_leb (x y : entry) : bool :=
  match x, y with
  | NaN, _ => false
  | _, NaN => false
  | NegInf, _ => true
  | _, PosInf => true
  | Num p, Num q => Qle_bool p q
  | _, _ => false
  end.

Definition entry_le (x y : entry) : Prop := entry_leb x y = true.

(** [x < y]. *)
Definition entry_lt (x y : entry) : Prop :=
  entry_leb x y = true /\ entry_leb y x = false.

(** [x == y]: the same number (or the same infinity); never true of NaN. *)
Definition entry_eqv (x y : entry) : Prop :=
  entry_leb x y = true /\ entry_leb y x = true.

Definition no_nan (l : list entry) : Prop := Forall (fun x => x <> NaN) l.

(** An n-dimensional array: its shape and its entries in row-major order. *)
Record ndarray : Type := mk_ndarray { shape : list nat; data : list entry }.

(** Number of entries of an array of shape [s] (the product of the axes). *)
Definition size_of (s : list nat) : nat := fold_right Nat.mul 1%nat s.

Definition well_shaped (a : ndarray) : Prop :=
  length (data a) = size_of (shape a).

(** Python values seen by the adapter.  [JaxArray] is a [jnp.ndarray],
    [NpArray] a [np.ndarray]; a dictionary keeps its insertion order. *)
Inductive pyval : Type :=
| JaxArray (a : ndarray)
| NpArray (a : ndarray)
| PyTuple (es : list pyval)
| PyList (es : list pyval)
| PyDict (kvs : list (string * pyval))
| PyNone
| PyBool (b : bool)
| PyInt (z : Z)
| PyFloat (q : Q).

(** Induction principle that reaches inside the containers. *)
Section pyval_induction.
Variable P : pyval -> Prop.
Hypothesis Hjax : forall a, P (JaxArray a).
Hypothesis Hnp : forall a, P (NpArray a).
Hypothesis Htuple : forall es, Forall P es -> P (PyTuple es).
Hypothesis Hlist : forall es, Forall P es -> P (PyList es).
Hypothesis Hdict : forall kvs, Forall (fun kv => P (snd kv)) kvs -> P (PyDict kvs).
Hypothesis Hnone : P PyNone.
Hypothesis Hbool : forall b, P (PyBool b).
Hypothesis Hint : forall z, P (PyInt z).
Hypothesis Hfloat : forall q, P (PyFloat q).

Fixpoint pyval_ind' (v : pyval) : P v :=
  match v with
  | JaxArray a => Hjax a
  | NpArray a => Hnp a
  | PyTuple es =>
      Htuple ((fix go (l : list pyval) : Forall P l :=
                 match l with
                 | [] => Forall_nil P
                 | e :: l' => Forall_cons e (pyval_ind' e) (go l')
                 end) es)
  | PyList es =>
      Hlist ((fix go (l : list pyval) : Forall P l :=
                match l with
                | [] => Forall_nil P
                | e :: l' => Forall_cons e (pyval_ind' e) (go l')
                end) es)
  | PyDict kvs =>
      Hdict ((fix go (l : list (string * pyval))
                : Forall (fun kv => P (snd kv)) l :=
                match l with
                | [] => Forall_nil _
                | kv :: l' =>
                    Forall_cons (P := fun kv => P (snd kv)) kv
                      (pyval_ind' (snd kv)) (go l')
                end) kvs)
  | PyNone => Hnone
  | PyBool b => Hbool b
  | PyInt z => Hint z
  | PyFloat q => Hfloat q
  end.
End pyval_induction.

(* ===================================================================== *)
(** ** Exceptions                                                         *)
(* ===================================================================== *)

(** The pieces of an f-string: literal text, [{v}] (str), [{v!r}] (repr)
    and [{type(v)}]. *)
Inductive frag : Type :=
| Lit (s : string)
| FStr (v : pyval)
| FRepr (v : pyval)
| FType (v : pyval).

Definition message := list frag.

Inductive exn : Type :=
| AssertionError (msg : message)
| TypeError (msg : message)
| ValueError (msg : message)
| AttributeError (attr : string)
| NotImplementedError
| GymnasiumError (msg : message)
| OverflowError.

Inductive result (A : Type) : Type :=
| Ok (a : A)
| Err (e : exn).
Arguments Ok {A} a.
Arguments Err {A} e.

Definition rbind {A B} (r : result A) (k : A -> result B) : result B :=
  match r with
  | Ok a => k a
  | Err e => Err e
  end.

Definition rmap {A B} (f : A -> B) (r : result A) : result B :=
  rbind r (fun a => Ok (f a)).

(** Left-to-right traversal that stops at the first exception, as a Python
    comprehension does. *)
Fixpoint mapM {A B} (f : A -> result B) (l : list A) : result (list B) :=
  match l with
  | [] => Ok []
  | x :: l' => rbind (f x) (fun y => rbind (mapM f l') (fun ys => Ok (y :: ys)))
  end.

(** A message mentions a value when one of its fragments formats it. *)
Definition frag_mentions (v : pyval) (f : frag) : Prop :=
  f = FStr v \/ f = FRepr v.

Definition mentions_value (msg : message) (v : pyval) : Prop :=
  Exists (frag_mentions v) msg.

Definition mentions_type (msg : message) (v : pyval) : Prop :=
  In (FType v) msg.

(* ===================================================================== *)
(** ** NumPy                                                              *)
(* ===================================================================== *)

Module NumPy.

(** [np.maximum] and [np.minimum] on one entry: NaN if either is NaN. *)
Definition maximum1 (x y : entry) : entry :=
  match x, y with
  | NaN, _ => NaN
  | _, NaN => NaN
  | _, _ => if entry_leb y x then x else y
  end.

Definition minimum1 (x y : entry) : entry :=
  match x, y with
  | NaN, _ => NaN
  | _, NaN => NaN
  | _, _ => if entry_leb x y then x else y
  end.

(** Broadcasting of two shapes, aligned on the trailing axis; the
    arguments are the reversed shapes. *)
Fixpoint broadcast_rev (r1 r2 : list nat) : option (list nat) :=
  match r1, r2 with
  | [], r => Some r
  | r, [] => Some r
  | n :: r1', m :: r2' =>
      match broadcast_rev r1' r2' with
      | None => None
      | Some r =>
          if (n =? m)%nat then Some (n :: r)
          else if (n =? 1)%nat then Some (m :: r)
          else if (m =? 1)%nat then Some (n :: r)
          else None
      end
  end.

Definition broadcast_shapes (s1 s2 : list nat) : option (list nat) :=
  option_map (@rev nat) (broadcast_rev (rev s1) (rev s2)).

(** [chunks n k d]: the [n] consecutive blocks of [k] entries of [d]. *)
Fixpoint chunks (n k : nat) (d : list entry) : list (list entry) :=
  match n with
  | O => []
  | S n' => firstn k d :: chunks n' k (skipn k d)
  end.

(** Data of an array of shape [src] once broadcast to shape [tgt] (of
    the same rank, every axis of [src] equal to that of [tgt] or 1). *)
Fixpoint broadcast_data (src tgt : list nat) (d : list entry) : list entry :=
  match src, tgt with
  | n :: src', m :: tgt' =>
      if (n =? m)%nat
      then concat (map (broadcast_data src' tgt') (chunks n (size_of src') d))
      else concat (repeat (broadcast_data src' tgt' d) m)
  | _, _ => d
  end.

Definition broadcast_to (a : ndarray) (tgt : list nat) : list entry :=
  let pad := repeat 1%nat (length tgt - length (shape a)) in
  broadcast_data (pad ++ shape a) tgt (data a).

Fixpoint zip_with (f : entry -> entry -> entry) (l1 l2 : list entry)
  : list entry :=
  match l1, l2 with
  | x :: l1', y :: l2' => f x y :: zip_with f l1' l2'
  | _, _ => []
  end.

(** A binary ufunc: broadcast both operands, then apply entry-wise. *)
Definition ufunc2 (f : entry -> entry -> entry) (a b : ndarray)
  : result ndarray :=
  match broadcast_shapes (shape a) (shape b) with
  | None =>
      Err (ValueError [Lit "operands could not be broadcast together"])
  | Some s =>
      Ok (mk_ndarray s (zip_with f (broadcast_to a s) (broadcast_to b s)))
  end.

Definition maximum := ufunc2 maximum1.
Definition minimum := ufunc2 minimum1.

(** [ndarray.clip(a_min, a_max)]: [minimum(a_max, maximum(a, a_min))]. *)
Definition clip_array (a a_min a_max : ndarray) : result ndarray :=
  rbind (maximum a a_min) (fun m => minimum a_max m).

Definition scalar (x : entry) : ndarray := mk_ndarray [] [x].

(** The binary64 float nearest to an integer (ties to even): the value an
    integer takes when NumPy promotes it to meet floating-point bounds. *)
Definition float64_of_Z (z : Z) : entry :=
  match binary_normalize 53 1024 z 0 false with
  | S754_zero _ => Num 0
  | S754_infinity s => if s then NegInf else PosInf
  | S754_nan => NaN
  | S754_finite s m e =>
      let mag := match e with
                 | Zneg p => Qred (Zpos m # (2 ^ p)%positive)
                 | _ => inject_Z (Zpos m * 2 ^ e)
                 end in
      Num (if s then Qopp mag else mag)
  end.

Definition shape_eqb (s1 s2 : list nat) : bool :=
  if list_eq_dec Nat.eq_dec s1 s2 then true else false.

(** Stacking of equally shaped arrays along a new leading axis. *)
Definition stack (arrs : list ndarray) : result ndarray :=
  match arrs with
  | [] => Ok (mk_ndarray [0%nat] [])
  | a :: rest =>
      if forallb (fun b => shape_eqb (shape a) (shape b)) rest
      then Ok (mk_ndarray (length arrs :: shape a) (concat (map data arrs)))
      else Err (ValueError [Lit "inhomogeneous shape"])
  end.

(** [np.asarray] on array-likes, as the floating-point array that
    clipping against floating-point bounds works on: arrays, numbers and
    nested sequences of them.  An integer is rounded to binary64, as in a
    sequence of integers; a bare number, which NumPy gives the precision
    of the bounds, is taken at that value too.  [None] and dictionaries
    have no numeric array form. *)
Fixpoint asarray (v : pyval) : result ndarray :=
  match v with
  | JaxArray a => Ok a
  | NpArray a => Ok a
  | PyInt z => Ok (scalar (float64_of_Z z))
  | PyFloat q => Ok (scalar q)
  | PyBool b => Ok (scalar (if b then 1 else 0))
  | PyTuple es => rbind (mapM asarray es) stack
  | PyList es => rbind (mapM asarray es) stack
  | PyNone => Err (TypeError [Lit "not a numeric array: "; FStr v])
  | PyDict _ => Err (TypeError [Lit "not a numeric array: "; FStr v])
  end.

(** [np.clip(a, a_min, a_max)].  A JAX array answers with its own [clip]
    method and stays a JAX array; everything else becomes a NumPy array. *)
Definition clip (a : pyval) (a_min a_max : ndarray) : result pyval :=
  match a with
  | JaxArray x => rmap JaxArray (clip_array x a_min a_max)
  | _ => rbind (asarray a) (fun x => rmap NpArray (clip_array x a_min a_max))
  end.

(** Clamping one entry, and entry-wise clamping of three lists of one
    length: what [clip_array] computes on operands of one shape. *)
Definition clip1 (x lo hi : entry) : entry := minimum1 hi (maximum1 x lo).

Fixpoint clip_data (a lo hi : list entry) : list entry :=
  match a, lo, hi with
  | x :: a', l :: lo', h :: hi' => clip1 x l h :: clip_data a' lo' hi'
  | _, _, _ => []
  end.

End NumPy.

(* ===================================================================== *)
(** ** Spaces                                                             *)
(* ===================================================================== *)

(** A bounded-real space: entry-wise lower and upper bounds of one shape. *)
Record BoxSpace : Type := mk_Box { low : ndarray; high : ndarray }.

Inductive Space : Type :=
| Box (b : BoxSpace)
| Discrete (n start : Z)
| MultiBinary (n : nat)
| MultiDiscrete (nvec : list Z).

(** [isinstance(space, gym.spaces.Box)]. *)
Definition isinstance_Box (sp : Space) : bool :=
  match sp with
  | Box _ => true
  | _ => false
  end.

(** Entry-wise [lo <= a <= hi] on the data of three arrays of one length. *)
Definition within (lo a hi : list entry) : Prop :=
  Forall2 entry_le lo a /\ Forall2 entry_le a hi.

(** A Box as its constructor leaves it: both bounds have the shape of the
    space, and the lower bound does not exceed the upper one. *)
Definition box_wf (b : BoxSpace) : Prop :=
  shape (low b) = shape (high b) /\
  well_shaped (low b) /\ well_shaped (high b) /\
  Forall2 entry_le (data (low b)) (data (high b)).

(** An array has the shape of the space. *)
Definition conforms (b : BoxSpace) (a : ndarray) : Prop :=
  shape a = shape (low b) /\ well_shaped a.

(* ===================================================================== *)
(** ** wrappers/clip_action.py                                            *)
(* ===================================================================== *)

Module ClipAction.

(** What the wrappers read of the environment they wrap. *)
Record Env : Type := mk_Env { action_space : Space }.

Record VectorEnv : Type := mk_VectorEnv {
  vec_action_space : Space;
  single_action_space : Space;
  num_envs : nat
}.

Record _ClipAction : Type := mk_ClipAction { env : Env }.
Record _VectorClipAction : Type := mk_VectorClipAction { venv : VectorEnv }.

(** [_ClipAction.__init__]. *)
Definition _ClipAction_init (e : Env) : result _ClipAction :=
  if isinstance_Box (action_space e)
  then Ok (mk_ClipAction e)
  else Err (AssertionError []).

(** [_VectorClipAction.__init__]. *)
Definition _VectorClipAction_init (e : VectorEnv) : result _VectorClipAction :=
  if isinstance_Box (vec_action_space e)
  then if isinstance_Box (single_action_space e)
       then Ok (mk_VectorClipAction e)
       else Err (AssertionError [])
  else Err (AssertionError []).

(** [self.action_space.low] / [.high]: only a Box has these attributes. *)
Definition space_low (sp : Space) : result ndarray :=
  match sp with
  | Box b => Ok (low b)
  | _ => Err (AttributeError "low")
  end.

Definition space_high (sp : Space) : result ndarray :=
  match sp with
  | Box b => Ok (high b)
  | _ => Err (AttributeError "high")
  end.

(** [_ClipAction.action]. *)
Definition action (self : _ClipAction) (a : pyval) : result pyval :=
  rbind (space_low (action_space (env self))) (fun lo =>
  rbind (space_high (action_space (env self))) (fun hi =>
  NumPy.clip a lo hi)).

(** [_VectorClipAction.actions]. *)
Definition actions (self : _VectorClipAction) (a : pyval) : result pyval :=
  rbind (space_low (vec_action_space (venv self))) (fun lo =>
  rbind (space_high (vec_action_space (venv self))) (fun hi =>
  NumPy.clip a lo hi)).

Inductive AnyEnv : Type :=
| Single (e : Env)
| Vector (e : VectorEnv).

Inductive AnyWrapper : Type :=
| WSingle (w : _ClipAction)
| WVector (w : _VectorClipAction).

(** The factory [ClipAction]. *)
Definition ClipAction (e : AnyEnv) : result AnyWrapper :=
  match e with
  | Vector v => rmap WVector (_VectorClipAction_init v)
  | Single s => rmap WSingle (_ClipAction_init s)
  end.

(** The per-step transform of either wrapper, and the space it clips to. *)
Definition wrapper_action_space (w : AnyWrapper) : Space :=
  match w with
  | WSingle w => action_space (env w)
  | WVector w => vec_action_space (venv w)
  end.

Definition transform (w : AnyWrapper) (a : pyval) : result pyval :=
  match w with
  | WSingle w => action w a
  | WVector w => actions w a
  end.

End ClipAction.

(* ===================================================================== *)
(** ** wrappers/flatten_observation.py                                    *)
(* ===================================================================== *)

Module FlattenObservation.

(** [ndarray.flatten()]: one axis holding every entry. *)
Definition ndarray_flatten (a : ndarray) : ndarray :=
  mk_ndarray [length (data a)] (data a).

(** Modelled from the spec: [gymnasium.spaces.flatten_space] is not among
    the sources.  For a bounded-real space the spec gives the flattened
    space one axis whose length is the number of entries
    ("observation space shape (96,96,3) -> flattened space shape (27648,)"). *)
Definition flatten_space (b : BoxSpace) : BoxSpace :=
  mk_Box (ndarray_flatten (low b)) (ndarray_flatten (high b)).

(** Modelled from the spec: [gymnasium.spaces.flatten] is not among the
    sources.  The spec has it return "a 1-dimensional array whose length
    equals the flattened space's declared size"
    ("an observation of shape (96,96,3) flattens to shape (27648,)"). *)
Definition flatten (b : BoxSpace) (x : ndarray) : ndarray :=
  ndarray_flatten x.

(** [np.tile(a, (n, 1, ..., 1))]: [n] copies along a new leading axis. *)
Definition tile_leading (n : nat) (a : ndarray) : ndarray :=
  mk_ndarray (n :: shape a) (concat (repeat (data a) n)).

(** Modelled from the spec: [gymnasium.vector.utils.batch_space] is not
    among the sources.  The spec calls its result the "batch of the
    flattened single-instance space": a leading axis of [n] instances in
    front of the single-instance shape (shape (8, 27648) for 8 copies of
    a space of shape (27648,)). *)
Definition batch_space (b : BoxSpace) (n : nat) : BoxSpace :=
  mk_Box (tile_leading n (low b)) (tile_leading n (high b)).

Definition space_shape (b : BoxSpace) : list nat := shape (low b).

Record Env : Type := mk_Env { observation_space : BoxSpace }.

Record VectorEnv : Type := mk_VectorEnv {
  vec_observation_space : BoxSpace;
  single_observation_space : BoxSpace;
  num_envs : nat
}.

(** The wrapper keeps the wrapped environment and the space it declares. *)
Record _FlattenObservation : Type := mk_FlattenObservation {
  env : Env;
  declared_observation_space : BoxSpace
}.

Record _VectorFlattenObservation : Type := mk_VectorFlattenObservation {
  venv : VectorEnv;
  declared_single_observation_space : BoxSpace;
  declared_vec_observation_space : BoxSpace
}.

(** [_FlattenObservation.__init__]. *)
Definition _FlattenObservation_init (e : Env) : _FlattenObservation :=
  mk_FlattenObservation e (flatten_space (observation_space e)).

(** [_FlattenObservation.observation]. *)
Definition observation (self : _FlattenObservation) (o : ndarray) : ndarray :=
  flatten (observation_space (env self)) o.

(** [_VectorFlattenObservation.__init__]. *)
Definition _VectorFlattenObservation_init (e : VectorEnv)
  : _VectorFlattenObservation :=
  let single := flatten_space (single_observation_space e) in
  mk_VectorFlattenObservation e single (batch_space single (num_envs e)).

(** [_VectorFlattenObservation.observation]: flattens against the batched
    space of the wrapped environment. *)
Definition vec_observation (self : _VectorFlattenObservation) (o : ndarray)
  : ndarray :=
  flatten (vec_observation_space (venv self)) o.

(** A vector environment as [gymnasium.vector] builds it: its batched
    space is the batch of its single-instance space. *)
Definition make_vector_env (single : BoxSpace) (n : nat) : VectorEnv :=
  mk_VectorEnv (batch_space single n) single n.

End FlattenObservation.

(* ===================================================================== *)
(** ** envs/phys2d/conversion.py                                          *)
(* ===================================================================== *)

(** [_convert_jax_to_numpy]. *)
Fixpoint _convert_jax_to_numpy (element : pyval) : result pyval :=
  match element with
  | JaxArray a => Ok (NpArray a)
  | PyTuple es => rmap PyTuple (mapM _convert_jax_to_numpy es)
  | PyList es => rmap PyList (mapM _convert_jax_to_numpy es)
  | PyDict kvs =>
      rmap PyDict
        (mapM (fun kv => rmap (pair (fst kv)) (_convert_jax_to_numpy (snd kv)))
              kvs)
  | _ => Err (TypeError [Lit "Cannot convert "; FStr element; Lit " to numpy"])
  end.

(** The types the normalizer recognizes at the top of a value. *)
Definition recognized (v : pyval) : bool :=
  match v with
  | JaxArray _ | PyTuple _ | PyList _ | PyDict _ => true
  | _ => false
  end.

(** Values built from JAX arrays, tuples, lists and dictionaries only. *)
Fixpoint convertible (v : pyval) : bool :=
  match v with
  | JaxArray _ => true
  | PyTuple es => forallb convertible es
  | PyList es => forallb convertible es
  | PyDict kvs => forallb (fun kv => convertible (snd kv)) kvs
  | _ => false
  end.

(** [normalized v w]: [w] is [v] with every JAX array replaced by the NumPy
    array of the same shape and data; containers keep their kind, their
    length and order, and dictionaries their keys. *)
Inductive normalized : pyval -> pyval -> Prop :=
| norm_array a : normalized (JaxArray a) (NpArray a)
| norm_tuple es ws : Forall2 normalized es ws -> normalized (PyTuple es) (PyTuple ws)
| norm_list es ws : Forall2 normalized es ws -> normalized (PyList es) (PyList ws)
| norm_dict kvs kws :
    Forall2 (fun kv kw => fst kv = fst kw /\ normalized (snd kv) (snd kw)) kvs kws ->
    normalized (PyDict kvs) (PyDict kws).

(** [x] occurs in [v]: it is [v] or nested in one of its containers. *)
Inductive occurs_in (x : pyval) : pyval -> Prop :=
| occ_here : occurs_in x x
| occ_tuple es e : In e es -> occurs_in x e -> occurs_in x (PyTuple es)
| occ_list es e : In e es -> occurs_in x e -> occurs_in x (PyList es)
| occ_dict kvs kv : In kv kvs -> occurs_in x (snd kv) -> occurs_in x (PyDict kvs).

(** [numpy.random.Generator.integers(low, high)] with the default
    [endpoint=False]: a draw from the half-open range that starts at [low]
    (inclusive) and ends before [high] (exclusive).  [u] stands for the
    entropy of the process-level generator; the way NumPy turns entropy
    into the draw is not followed, only the range of the draws is. *)
Definition integers (low high : Z) (u : Z) : Z :=
  (low + u mod (high - low))%Z.

(** The seed [JaxEnv.__init__] draws: [np_random.integers(0, 2**32 - 1)]. *)
Definition default_seed (u : Z) : Z :=
  integers 0 (2 ^ 32 - 1) u.

(** Modelled from the spec: the base class [gymnasium.Env.reset] is not
    among the sources.  The spec speaks of valid seeds; the base class
    takes a non-negative integer or no seed and raises its own error for
    any other, before the adapter has assigned anything.  Its other
    effect, reseeding the base-class generator, is read by no method of
    the adapter. *)
Definition super_reset (seed : option Z) : result unit :=
  match seed with
  | Some s =>
      if (s <? 0)%Z
      then Err (GymnasiumError
                  [Lit "Seed must be a non-negative integer or omitted, not ";
                   FStr (PyInt s)])
      else Ok tt
  | None => Ok tt
  end.

(** [jrng.PRNGKey] takes a seed that fits a signed 64-bit integer. *)
Definition fits_int64 (s : Z) : bool :=
  ((- 2 ^ 63 <=? s) && (s <? 2 ^ 63))%Z.

(** The seeds [reset] accepts, and the error it raises for the others
    before it assigns anything. *)
Definition valid_seed (s : Z) : bool :=
  ((0 <=? s) && (s <? 2 ^ 63))%Z.

Definition seed_rejection (seed : option Z) : option exn :=
  match seed with
  | Some s =>
      match super_reset seed with
      | Err e => Some e
      | Ok _ => if fits_int64 s then None else Some OverflowError
      end
  | None => None
  end.

Section JaxEnv.

(** [StateType] and the other type variables of [gymnasium.functional];
    [Key] is a [jrng.PRNGKey]. *)
Variables StateType Key InfoType RenderStateType ImageType : Type.

(** The stateless function bundle.  [render_init] and [render_close] act
    on a resource; the calls are recorded as events (see [event]). *)
Record FuncEnv : Type := mk_FuncEnv {
  initial : Key -> StateType;
  transition : StateType -> pyval -> Key -> StateType;
  observation : StateType -> pyval;
  reward : StateType -> pyval -> StateType -> pyval;
  terminal : StateType -> pyval;
  state_info : StateType -> InfoType;
  step_info : StateType -> pyval -> StateType -> InfoType;
  render_init : RenderStateType;
  render_image : StateType -> option RenderStateType -> RenderStateType * ImageType;
}.

(** The collaborators outside this layer: JAX's key constructor and
    [split], the membership test of a space, and Python's [float] and
    [bool] on what the bundle returns. *)
Record Runtime : Type := mk_Runtime {
  PRNGKey : Z -> Key;
  split : Key -> Key * Key;
  contains : Space -> pyval -> bool;
  py_float : pyval -> result Q;
  py_bool : pyval -> result bool;
}.

(** Acquisition and release of the render state, as seen from outside. *)
Inductive event : Type :=
| EvRenderInit
| EvRenderClose (rs : RenderStateType).

(** The fields of a [JaxEnv].  [state] is unset until the first [reset].
    [metadata], [reward_range] and [spec] are stored by the constructor
    and read by no method; they are left out. *)
Record JaxEnv : Type := mk_JaxEnv {
  func_env : FuncEnv;
  observation_space : Space;
  action_space : Space;
  render_mode : option string;
  _is_box_action_space : bool;
  render_state : option RenderStateType;
  rng : Key;
  state : option StateType;
}.

Definition set_rng (k : Key) (self : JaxEnv) : JaxEnv :=
  mk_JaxEnv (func_env self) (observation_space self) (action_space self)
    (render_mode self) (_is_box_action_space self) (render_state self)
    k (state self).

Definition set_state (s : StateType) (self : JaxEnv) : JaxEnv :=
  mk_JaxEnv (func_env self) (observation_space self) (action_space self)
    (render_mode self) (_is_box_action_space self) (render_state self)
    (rng self) (Some s).

Definition set_render_state (r : option RenderStateType) (self : JaxEnv)
  : JaxEnv :=
  mk_JaxEnv (func_env self) (observation_space self) (action_space self)
    (render_mode self) (_is_box_action_space self) r
    (rng self) (state self).

(** The object together with the log of render-state events. *)
Definition world : Type := (JaxEnv * list event)%type.

(** Methods: state passing with exceptions.  An exception keeps whatever
    was assigned before it was raised. *)
Definition M (A : Type) : Type := world -> result A * world.

Definition ret {A} (a : A) : M A := fun w => (Ok a, w).
Definition raise {A} (e : exn) : M A := fun w => (Err e, w).
Definition bind {A B} (c : M A) (k : A -> M B) : M B :=
  fun w =>
    match c w with
    | (Ok a, w') => k a w'
    | (Err e, w') => (Err e, w')
    end.
Definition lift {A} (r : result A) : M A := fun w => (r, w).
Definition get_self : M JaxEnv := fun w => (Ok (fst w), w).
Definition modify (f : JaxEnv -> JaxEnv) : M unit :=
  fun w => (Ok tt, (f (fst w), snd w)).
Definition emit (ev : event) : M unit :=
  fun w => (Ok tt, (fst w, snd w ++ [ev])).

(** Reading [self.state]: an [AttributeError] while it is unset. *)
Definition get_state : M StateType :=
  fun w =>
    match state (fst w) with
    | Some s => (Ok s, w)
    | None => (Err (AttributeError "state"), w)
    end.

Notation "x <- c ;; k" := (bind c (fun x => k))
  (at level 61, c at next level, right associativity).
Notation "c ;;; k" := (bind c (fun _ => k))
  (at level 61, right associativity).

Definition is_rgb_array (mode : option string) : bool :=
  match mode with
  | Some m => String.eqb m "rgb_array"
  | None => false
  end.

Variable rt : Runtime.

(** [JaxEnv.__init__]; [u] is the raw entropy behind the seed source. *)
Definition JaxEnv_init (fe : FuncEnv) (obs_space act_space : Space)
    (mode : option string) (u : Z) : world :=
  let is_box := isinstance_Box act_space in
  let seed := default_seed u in
  if is_rgb_array mode
  then (mk_JaxEnv fe obs_space act_space mode is_box
          (Some (render_init fe)) (PRNGKey rt seed) None,
        [EvRenderInit])
  else (mk_JaxEnv fe obs_space act_space mode is_box
          None (PRNGKey rt seed) None,
        []).

(** [jrng.split(self.rng)], keeping the second key as the new stream. *)
Definition split_rng : M Key :=
  self <- get_self ;;
  let keys := split rt (rng self) in
  modify (set_rng (snd keys)) ;;;
  ret (fst keys).

(** [jrng.PRNGKey(seed)] on the seed given to [reset]: an
    [OverflowError] for a seed outside the signed 64-bit range. *)
Definition make_key (s : Z) : result Key :=
  if fits_int64 s then Ok (PRNGKey rt s) else Err OverflowError.

(** [JaxEnv.reset]. *)
Definition reset (seed : option Z) : M (pyval * InfoType) :=
  lift (super_reset seed) ;;;
  match seed with
  | Some s =>
      key <- lift (make_key s) ;;
      modify (set_rng key)
  | None => ret tt
  end ;;;
  k <- split_rng ;;
  self <- get_self ;;
  let fe := func_env self in
  let st := initial fe k in
  modify (set_state st) ;;;
  let obs := observation fe st in
  let info := state_info fe st in
  obs <- lift (_convert_jax_to_numpy obs) ;;
  ret (obs, info).

(** The first statement of [step]: clip for a Box, check otherwise.  It
    reads the object and assigns nothing. *)
Definition check_action (self : JaxEnv) (action : pyval) : result pyval :=
  if _is_box_action_space self
  then
    match action_space self with
    | Box b => NumPy.clip action (low b) (high b)
    | _ => Err (AssertionError [])
    end
  else
    let err_msg := [FRepr action; Lit " ("; FType action; Lit ") invalid"] in
    if contains rt (action_space self) action
    then Ok action
    else Err (AssertionError err_msg).

Definition step_result : Type := (pyval * Q * bool * bool * InfoType)%type.

(** The rest of [step], from the split of the random stream on. *)
Definition advance (action : pyval) : M step_result :=
  k <- split_rng ;;
  self <- get_self ;;
  let fe := func_env self in
  st <- get_state ;;
  let next_state := transition fe st action k in
  let observation := observation fe st in
  let reward := reward fe st action next_state in
  let terminated := terminal fe next_state in
  let info := step_info fe st action next_state in
  modify (set_state next_state) ;;;
  observation <- lift (_convert_jax_to_numpy observation) ;;
  reward <- lift (py_float rt reward) ;;
  terminated <- lift (py_bool rt terminated) ;;
  ret (observation, reward, terminated, false, info).

(** [JaxEnv.step]. *)
Definition step (action : pyval) : M step_result :=
  self <- get_self ;;
  action <- lift (check_action self action) ;;
  advance action.

(** [JaxEnv.render]. *)
Definition render : M ImageType :=
  self <- get_self ;;
  if is_rgb_array (render_mode self)
  then
    st <- get_state ;;
    let out := render_image (func_env self) st (render_state self) in
    modify (set_render_state (Some (fst out))) ;;;
    ret (snd out)
  else raise NotImplementedError.

(** [JaxEnv.close]. *)
Definition close : M unit :=
  self <- get_self ;;
  match render_state self with
  | Some rs =>
      emit (EvRenderClose rs) ;;;
      modify (set_render_state None)
  | None => ret tt
  end.

(** The calls a client can make on the object. *)
Inductive call : Type :=
| CallReset (seed : option Z)
| CallStep (action : pyval)
| CallRender
| CallClose.

Definition is_close (c : call) : bool :=
  match c with
  | CallClose => true
  | _ => false
  end.

Definition run_call (c : call) (w : world) : world :=
  match c with
  | CallReset seed => snd (reset seed w)
  | CallStep a => snd (step a w)
  | CallRender => snd (render w)
  | CallClose => snd (close w)
  end.

Definition run_calls (cs : list call) (w : world) : world :=
  fold_left (fun w c => run_call c w) cs w.

(** Number of releases of the render state recorded in a log. *)
Definition releases (log : list event) : nat :=
  List.length (filter (fun ev => match ev with EvRenderClose _ => true | _ => false end) log).

Definition acquisitions (log : list event) : nat :=
  List.length (filter (fun ev => match ev with EvRenderInit => true | _ => false end) log).

(** The render state is held and has not been released: the mode is the
    image-array mode, [render_state] is set, and the log shows the one
    acquisition and nothing else. *)
Definition render_state_held (w : world) : Prop :=
  is_rgb_array (render_mode (fst w)) = true /\
  (exists rs, render_state (fst w) = Some rs) /\
  snd w = [EvRenderInit].

(** The flag cached by the constructor agrees with the action space. *)
Definition flag_consistent (self : JaxEnv) : Prop :=
  _is_box_action_space self = isinstance_Box (action_space self).

(** What the constructor fixes and no method assigns. *)
Definition same_config (self self' : JaxEnv) : Prop :=
  func_env self' = func_env self /\
  observation_space self' = observation_space self /\
  action_space self' = action_space self /\
  render_mode self' = render_mode self /\
  _is_box_action_space self' = _is_box_action_space self.

End JaxEnv.

Arguments EvRenderInit {RenderStateType}.

(** The runtime with another membership test. *)
Definition with_contains {Key : Type} (c : Space -> pyval -> bool)
    (rt : Runtime Key) : Runtime Key :=
  mk_Runtime (PRNGKey rt) (split rt) c (py_float rt) (py_bool rt).

(* ===================================================================== *)
(** ** A small environment to run the definitions on                      *)
(* ===================================================================== *)

Module Toy.

(** Keys are integers; [split] sends [k] to the pair [(2k+1, 2k+2)]. *)
Definition toy_contains (sp : Space) (v : pyval) : bool :=
  match sp, v with
  | Discrete n start, PyInt z => ((start <=? z) && (z <? start + n))%Z
  | _, _ => false
  end.

Definition toy_float (v : pyval) : result Q :=
  match v with
  | PyFloat q => Ok q
  | PyInt z => Ok (inject_Z z)
  | PyBool b => Ok (if b then 1 else 0)
  | _ => Err (TypeError [Lit "float() argument: "; FStr v])
  end.

Definition toy_bool (v : pyval) : result bool :=
  match v with
  | PyBool b => Ok b
  | PyInt z => Ok (negb (z =? 0)%Z)
  | PyNone => Ok false
  | _ => Err (ValueError [Lit "truth value: "; FStr v])
  end.

Definition runtime : Runtime Z :=
  mk_Runtime (fun s => s) (fun k => (2 * k + 1, 2 * k + 2)%Z)
    toy_contains toy_float toy_bool.

Definition action_value (a : pyval) : Z :=
  match a with
  | PyInt z => z
  | _ => 0%Z
  end.

(** A counter: the state is an integer, an action adds to it, the
    observation is the state as a one-entry JAX array, the reward is the
    increment, and the episode ends at 10. *)
Definition counter : FuncEnv Z Z Z nat Z :=
  mk_FuncEnv
    (fun k => (k mod 10)%Z)
    (fun s a _ => (s + action_value a)%Z)
    (fun s => JaxArray (mk_ndarray [1%nat] [inject_Z s]))
    (fun s _ s' => PyInt (s' - s))
    (fun s => PyBool (10 <=? s)%Z)
    (fun s => s)
    (fun _ _ s' => s')
    0%nat
    (fun s rs => (match rs with Some n => S n | None => 1%nat end, s)).

Definition unit_box : BoxSpace :=
  mk_Box (mk_ndarray [4%nat] [-1; -1; -1; -1]) (mk_ndarray [4%nat] [1; 1; 1; 1]).

Definition discrete_env (u : Z) : world Z Z Z nat Z :=
  JaxEnv_init runtime counter (Box unit_box) (Discrete 3 0) None u.

Definition rgb_env (u : Z) : world Z Z Z nat Z :=
  JaxEnv_init runtime counter (Box unit_box) (Discrete 3 0) (Some "rgb_array"%string) u.

End Toy.

(* ===================================================================== *)
(** ** Further notions for the properties of the code                     *)
(* ===================================================================== *)

(** Calls that drive the episode, as opposed to rendering and closing. *)
Definition is_episode_call (c : call) : bool :=
  match c with
  | CallReset _ => true
  | CallStep _ => true
  | _ => false
  end.

(** [y] is [x] clamped to the interval from [l] to [h]. *)
Definition clamped (l x h y : entry) : Prop :=
  (entry_lt x l /\ entry_eqv y l) \/
  (entry_lt h x /\ entry_eqv y h) \/
  (entry_le l x /\ entry_le x h /\ entry_eqv y x).

(** Entry by entry, [r] is [a] clamped to the bounds [lo] and [hi]. *)
Fixpoint clamped_all (lo a hi r : list entry) : Prop :=
  match lo, a, hi, r with
  | [], [], [], [] => True
  | l :: lo', x :: a', h :: hi', y :: r' =>
      clamped l x h y /\ clamped_all lo' a' hi' r'
  | _, _, _, _ => False
  end.

(** Python floats, possibly in nested lists and tuples. *)
Fixpoint float_sequence (v : pyval) : bool :=
  match v with
  | PyFloat _ => true
  | PyTuple es => forallb float_sequence es
  | PyList es => forallb float_sequence es
  | _ => false
  end.

(** The actions given as floating-point data: a NumPy array, or a list or
    tuple of Python floats (nested or not), which NumPy turns into a
    binary64 array. *)
Definition float_array_like (v : pyval) : bool :=
  match v with
  | NpArray _ => true
  | PyTuple es => forallb float_sequence es
  | PyList es => forallb float_sequence es
  | _ => false
  end.

(** No array, JAX or NumPy, anywhere in the value. *)
Fixpoint array_free (v : pyval) : bool :=
  match v with
  | JaxArray _ => false
  | NpArray _ => false
  | PyTuple es => forallb array_free es
  | PyList es => forallb array_free es
  | PyDict kvs => forallb (fun kv => array_free (snd kv)) kvs
  | _ => true
  end.

(** Two objects agree on what the episode depends on: the bundle, the
    action space with its cached flag, the state and the random stream. *)
Definition same_dynamics {StateType Key InfoType RenderStateType ImageType : Type}
    (w1 w2 : world StateType Key InfoType RenderStateType ImageType) : Prop :=
  func_env (fst w1) = func_env (fst w2) /\
  action_space (fst w1) = action_space (fst w2) /\
  _is_box_action_space (fst w1) = _is_box_action_space (fst w2) /\
  state (fst w1) = state (fst w2) /\
  rng (fst w1) = rng (fst w2).

Module Scenarios.

(** The counter behind a Box action space, and with a render mode the
    adapter does not support. *)
Definition box_env (u : Z) : world Z Z Z nat Z :=
  JaxEnv_init Toy.runtime Toy.counter (Box Toy.unit_box) (Box Toy.unit_box) None u.

Definition human_env (u : Z) : world Z Z Z nat Z :=
  JaxEnv_init Toy.runtime Toy.counter (Box Toy.unit_box) (Discrete 3 0)
    (Some "human"%string) u.

(** A bundle whose observation is a Python float, which the normalizer
    does not accept. *)
Definition scalar_obs : FuncEnv Z Z Z nat Z :=
  mk_FuncEnv
    (fun k => (k mod 10)%Z)
    (fun s a _ => (s + Toy.action_value a)%Z)
    (fun s => PyFloat (inject_Z s))
    (fun s _ s' => PyInt (s' - s))
    (fun s => PyBool (10 <=? s)%Z)
    (fun s => s)
    (fun _ _ s' => s')
    0%nat
    (fun s rs => (match rs with Some n => S n | None => 1%nat end, s)).

Definition scalar_obs_env (u : Z) : world Z Z Z nat Z :=
  JaxEnv_init Toy.runtime scalar_obs (Box Toy.unit_box) (Discrete 3 0) None u.

(** A one-entry Box from -2^60 to 2^60, and its clip wrapper. *)
Definition wide_box : BoxSpace :=
  mk_Box (mk_ndarray [1%nat] [inject_Z (- 2 ^ 60)])
         (mk_ndarray [1%nat] [inject_Z (2 ^ 60)]).

Definition unit_clip : ClipAction.AnyWrapper :=
  ClipAction.WSingle
    (ClipAction.mk_ClipAction (ClipAction.mk_Env (Box Toy.unit_box))).

Definition wide_clip : ClipAction.AnyWrapper :=
  ClipAction.WSingle
    (ClipAction.mk_ClipAction (ClipAction.mk_Env (Box wide_box))).

End Scenarios.

(* ===================================================================== *)
(** * Properties                                                          *)
(* ===================================================================== *)

(** ** Broadcasting of conforming operands                                *)

Module NumPyFacts.
Import NumPy.

Lemma broadcast_rev_same (r : list nat) : broadcast_rev r r = Some r.
Proof.
  induction r as [|n r IH]; simpl; [reflexivity|].
  rewrite IH, Nat.eqb_refl. reflexivity.
Qed.

Lemma broadcast_shapes_same (s : list nat) : broadcast_shapes s s = Some s.
Proof.
  unfold broadcast_shapes. rewrite broadcast_rev_same. simpl.
  now rewrite rev_involutive.
Qed.

Lemma chunks_concat (n k : nat) (d : list entry) :
  length d = (n * k)%nat -> concat (chunks n k d) = d.
Proof.
  revert d. induction n as [|n IH]; intros d Hlen; simpl in *.
  - destruct d; [reflexivity|discriminate].
  - rewrite IH.
    + apply firstn_skipn.
    + rewrite length_skipn. lia.
Qed.

Lemma chunks_length (n k : nat) (d : list entry) :
  length d = (n * k)%nat -> Forall (fun c => length c = k) (chunks n k d).
Proof.
  revert d. induction n as [|n IH]; intros d Hlen; simpl in *.
  - constructor.
  - constructor.
    + rewrite length_firstn. lia.
    + apply IH. rewrite length_skipn. lia.
Qed.

Lemma broadcast_data_same (s : list nat) (d : list entry) :
  length d = size_of s -> broadcast_data s s d = d.
Proof.
  revert d. induction s as [|n s IH]; intros d Hlen; simpl in *.
  - reflexivity.
  - rewrite Nat.eqb_refl.
    rewrite <- (chunks_concat n (size_of s) d Hlen) at 2.
    f_equal.
    pose proof (chunks_length n (size_of s) d Hlen) as Hall.
    induction Hall as [|c cs Hc _ IHcs]; simpl; [reflexivity|].
    now rewrite IH, IHcs.
Qed.

Lemma broadcast_to_same (a : ndarray) :
  well_shaped a -> broadcast_to a (shape a) = data a.
Proof.
  intros Hw. unfold broadcast_to. rewrite Nat.sub_diag. simpl.
  now apply broadcast_data_same.
Qed.

Lemma zip_with_length (f : entry -> entry -> entry) (l1 l2 : list entry) :
  length l1 = length l2 -> length (zip_with f l1 l2) = length l1.
Proof.
  revert l2. induction l1 as [|x l1 IH]; intros [|y l2] H; simpl in *;
    try discriminate; auto.
Qed.

Lemma ufunc2_conforming (f : entry -> entry -> entry) (a b : ndarray) :
  shape a = shape b -> well_shaped a -> well_shaped b ->
  ufunc2 f a b = Ok (mk_ndarray (shape a) (zip_with f (data a) (data b))).
Proof.
  intros Hs Ha Hb. unfold ufunc2. rewrite <- Hs, broadcast_shapes_same.
  rewrite (broadcast_to_same Ha). rewrite Hs, (broadcast_to_same Hb).
  reflexivity.
Qed.

Lemma zip_with_clip (a lo hi : list entry) :
  length a = length lo -> length lo = length hi ->
  zip_with minimum1 hi (zip_with maximum1 a lo) = clip_data a lo hi.
Proof.
  revert lo hi. induction a as [|x a IH]; intros [|l lo] [|h hi] H1 H2;
    simpl in *; try discriminate; try reflexivity.
  unfold clip1. f_equal. apply IH; lia.
Qed.

Lemma clip_array_conforming (a lo hi : ndarray) :
  shape a = shape lo -> shape lo = shape hi ->
  well_shaped a -> well_shaped lo -> well_shaped hi ->
  clip_array a lo hi
  = Ok (mk_ndarray (shape a) (clip_data (data a) (data lo) (data hi))).
Proof.
  intros Hs1 Hs2 Ha Hlo Hhi. unfold clip_array, maximum, minimum.
  rewrite (ufunc2_conforming maximum1 Hs1 Ha Hlo). simpl.
  assert (Hla : length (data a) = length (data lo)).
  { unfold well_shaped in *. congruence. }
  assert (Hlh : length (data lo) = length (data hi)).
  { unfold well_shaped in *. congruence. }
  rewrite ufunc2_conforming; simpl.
  - rewrite <- Hs2, <- Hs1. rewrite zip_with_clip by assumption. reflexivity.
  - congruence.
  - assumption.
  - unfold well_shaped. simpl. rewrite zip_with_length by assumption.
    exact Ha.
Qed.

Lemma entry_leb_refl (x : entry) : x <> NaN -> entry_leb x x = true.
Proof.
  destruct x; simpl; try congruence. intros _. apply Qle_bool_iff, Qle_refl.
Qed.

Lemma entry_leb_total (x y : entry) :
  x <> NaN -> y <> NaN -> entry_leb x y = false -> entry_leb y x = true.
Proof.
  destruct x as [| |p|], y as [| |q|]; simpl; try congruence.
  intros _ _ H. apply Qle_bool_iff, Qlt_le_weak, Qnot_le_lt.
  intros Hle. apply Qle_bool_iff in Hle. congruence.
Qed.

Lemma entry_le_no_nan (x y : entry) :
  entry_leb x y = true -> x <> NaN /\ y <> NaN.
Proof. destruct x, y; simpl; intros H; split; congruence. Qed.

Lemma maximum1_eq (x y : entry) :
  x <> NaN -> y <> NaN ->
  maximum1 x y = if entry_leb y x then x else y.
Proof. destruct x, y; simpl; congruence. Qed.

Lemma minimum1_eq (x y : entry) :
  x <> NaN -> y <> NaN ->
  minimum1 x y = if entry_leb x y then x else y.
Proof. destruct x, y; simpl; congruence. Qed.

Lemma minimum1_nan_r (x : entry) : minimum1 x NaN = NaN.
Proof. destruct x; reflexivity. Qed.

Lemma maximum1_nan_r (x : entry) : maximum1 x NaN = NaN.
Proof. destruct x; reflexivity. Qed.

(** The larger of two numbers is one of them and not below the second. *)
Lemma maximum1_above (x l : entry) :
  x <> NaN -> l <> NaN ->
  maximum1 x l <> NaN /\ entry_leb l (maximum1 x l) = true.
Proof.
  intros Hx Hl. rewrite (maximum1_eq Hx Hl).
  destruct (entry_leb l x) eqn:E; split; try assumption.
  now apply entry_leb_refl.
Qed.

Lemma clip1_within (x lo hi : entry) :
  x <> NaN -> entry_le lo hi ->
  entry_le lo (clip1 x lo hi) /\ entry_le (clip1 x lo hi) hi.
Proof.
  unfold entry_le. intros Hx Hle.
  destruct (entry_le_no_nan _ _ Hle) as [Hlo Hhi].
  destruct (maximum1_above Hx Hlo) as [Hm Hlm].
  unfold clip1. rewrite (minimum1_eq Hhi Hm).
  destruct (entry_leb hi (maximum1 x lo)) eqn:E.
  - split; [assumption|now apply entry_leb_refl].
  - split; [assumption|now apply entry_leb_total].
Qed.

Lemma clip1_inside (x lo hi : entry) :
  entry_le lo x -> entry_le x hi -> entry_eqv (clip1 x lo hi) x.
Proof.
  unfold entry_le, entry_eqv. intros H1 H2.
  destruct (entry_le_no_nan _ _ H1) as [Hlo Hx].
  destruct (entry_le_no_nan _ _ H2) as [_ Hhi].
  unfold clip1. rewrite (maximum1_eq Hx Hlo), H1, (minimum1_eq Hhi Hx).
  destruct (entry_leb hi x) eqn:E.
  - split; assumption.
  - split; now apply entry_leb_refl.
Qed.

Lemma clip_data_within (a lo hi : list entry) :
  length a = length lo -> no_nan a -> Forall2 entry_le lo hi ->
  within lo (clip_data a lo hi) hi.
Proof.
  intros Hlen Hnan H. revert a Hlen Hnan.
  induction H as [|l h lo hi Hlh _ IH]; intros [|x a] Hlen Hnan; simpl in *;
    try discriminate.
  - split; constructor.
  - inversion Hnan; subst.
    destruct (IH a) as [IH1 IH2]; [lia|assumption|].
    destruct (@clip1_within x l h); [assumption|assumption|].
    split; constructor; assumption.
Qed.

Lemma clip_data_inside (a lo hi : list entry) :
  within lo a hi -> Forall2 entry_eqv (clip_data a lo hi) a.
Proof.
  intros [H1 H2]. revert hi H2.
  induction H1 as [|l x lo a Hlx _ IH]; intros hi H2; inversion H2; subst;
    simpl; constructor.
  - now apply clip1_inside.
  - now apply IH.
Qed.

End NumPyFacts.

(** ** The action-clip wrapper                                            *)

Lemma clip_on_box (b : BoxSpace) (a : ndarray) :
  box_wf b -> conforms b a ->
  NumPy.clip (NpArray a) (low b) (high b)
  = Ok (NpArray (mk_ndarray (shape a)
                   (NumPy.clip_data (data a) (data (low b)) (data (high b))))).
Proof.
  intros (Hs & Hlo & Hhi & _) (Hsa & Ha). simpl.
  rewrite NumPyFacts.clip_array_conforming by assumption. reflexivity.
Qed.

(** Every wrapper the factory returns clips to a Box. *)
Lemma ClipAction_wraps_box (e : ClipAction.AnyEnv) (w : ClipAction.AnyWrapper) :
  ClipAction.ClipAction e = Ok w ->
  exists b, ClipAction.wrapper_action_space w = Box b.
Proof.
  destruct e as [e|e]; simpl;
    unfold ClipAction._ClipAction_init, ClipAction._VectorClipAction_init.
  - destruct (ClipAction.action_space e) as [b| | |] eqn:E; simpl;
      try discriminate.
    intros H. inversion H; subst. simpl. eauto.
  - destruct (ClipAction.vec_action_space e) as [b| | |] eqn:E; simpl;
      try discriminate.
    destruct (isinstance_Box (ClipAction.single_action_space e)); simpl;
      try discriminate.
    intros H. inversion H; subst. simpl. eauto.
Qed.

(** The docstring scenario: bounds [-1, 1] on four entries. *)
Example clip_scenario :
  ClipAction.action
    (ClipAction.mk_ClipAction (ClipAction.mk_Env (Box Toy.unit_box)))
    (NpArray (mk_ndarray [4%nat] [5; 2; -10; 0]))
  = Ok (NpArray (mk_ndarray [4%nat] [1; 1; -1; 0])).
Proof. reflexivity. Qed.

(** An action given as a Python list is clipped the same way. *)
Example clip_scenario_list :
  ClipAction.action
    (ClipAction.mk_ClipAction (ClipAction.mk_Env (Box Toy.unit_box)))
    (PyList [PyFloat 5; PyFloat 2; PyFloat (-10); PyFloat 0])
  = Ok (NpArray (mk_ndarray [4%nat] [1; 1; -1; 0])).
Proof. reflexivity. Qed.

(** [np.clip] on floating-point data is the clipping of its array,
    returned as a NumPy array. *)
Lemma clip_of_asarray (a : pyval) (x lo hi : ndarray) :
  float_array_like a = true ->
  NumPy.asarray a = Ok x ->
  NumPy.clip a lo hi = rmap NpArray (NumPy.clip_array x lo hi).
Proof.
  intros Hfl Ha. destruct a; simpl in Hfl; try discriminate;
    unfold NumPy.clip; now rewrite Ha.
Qed.

(** C6.  Over a Box action space whose lower bounds do not exceed its
    upper bounds, take an action given as floating-point data (a NumPy
    array, or a list or tuple of Python floats) that has the shape of the
    space and no NaN entry.  The per-step transform of the clip wrapper
    (single or batched) returns an array of that shape whose entries all
    lie within [low, high] -- in particular when some entry of the action
    lies outside -- and when the action already lies within the bounds the
    entries returned are the same numbers. *)
Theorem clip_action_within_bounds_or_unchanged
    (w : ClipAction.AnyWrapper) (b : BoxSpace) (a : pyval) (x : ndarray) :
  ClipAction.wrapper_action_space w = Box b ->
  box_wf b ->
  float_array_like a = true ->
  NumPy.asarray a = Ok x ->
  conforms b x ->
  no_nan (data x) ->
  exists x' : ndarray,
    ClipAction.transform w a = Ok (NpArray x') /\
    shape x' = shape x /\
    within (data (low b)) (data x') (data (high b)) /\
    (within (data (low b)) (data x) (data (high b)) ->
     Forall2 entry_eqv (data x') (data x)).
Proof.
  intros Hsp (Hs & Hlo & Hhi & Hle) Hfl Ha (Hsx & Hx) Hnan.
  pose proof (clip_of_asarray a (low b) (high b) Hfl Ha) as Hclip.
  rewrite NumPyFacts.clip_array_conforming in Hclip by assumption.
  exists (mk_ndarray (shape x)
            (NumPy.clip_data (data x) (data (low b)) (data (high b)))).
  split; [|split; [reflexivity|split]].
  - destruct w as [w|w]; simpl in Hsp |- *;
      unfold ClipAction.action, ClipAction.actions; rewrite Hsp; simpl;
      exact Hclip.
  - simpl. apply NumPyFacts.clip_data_within; try assumption.
    unfold well_shaped in *. congruence.
  - simpl. apply NumPyFacts.clip_data_inside.
Qed.

Lemma clip_action_within_bounds_or_unchanged_witness :
  let a := PyList [PyFloat 5; PyFloat 2; PyFloat (-10); PyFloat 0] in
  exists x' : ndarray,
    ClipAction.transform Scenarios.unit_clip a = Ok (NpArray x') /\
    shape x' = [4%nat] /\
    within [-1; -1; -1; -1] (data x') [1; 1; 1; 1] /\
    (within [-1; -1; -1; -1] [5; 2; -10; 0] [1; 1; 1; 1] ->
     Forall2 entry_eqv (data x') [5; 2; -10; 0]).
Proof.
  apply (@clip_action_within_bounds_or_unchanged
           Scenarios.unit_clip Toy.unit_box
           (PyList [PyFloat 5; PyFloat 2; PyFloat (-10); PyFloat 0])
           (mk_ndarray [4%nat] [5; 2; -10; 0])).
  - reflexivity.
  - unfold box_wf, well_shaped. simpl.
    repeat split; repeat constructor; reflexivity.
  - reflexivity.
  - reflexivity.
  - split; reflexivity.
  - repeat constructor; discriminate.
Defined.

(** [np.clip] does not clip NaN: an action with a NaN entry comes back
    with that entry still NaN, which lies within no bounds.  Neither is
    every action inside the bounds returned unchanged: a number is
    broadcast to the shape of the space, and an integer beyond 2^53 is
    rounded to the nearest binary64 float. *)
Lemma clip_action_returns_nan_unclipped :
  let lo : list entry := [-1; -1; -1; -1] in
  let hi : list entry := [1; 1; 1; 1] in
  ClipAction.transform Scenarios.unit_clip
    (NpArray (mk_ndarray [4%nat] [NaN; 0; 0; 0]))
  = Ok (NpArray (mk_ndarray [4%nat] [NaN; 0; 0; 0])) /\
  ~ within lo [NaN; 0; 0; 0] hi /\
  ClipAction.transform Scenarios.unit_clip (PyFloat 0)
  = Ok (NpArray (mk_ndarray [4%nat] [0; 0; 0; 0])) /\
  ClipAction.transform Scenarios.wide_clip (PyList [PyInt (2 ^ 53 + 1)])
  = Ok (NpArray (mk_ndarray [1%nat] [inject_Z (2 ^ 53)])).
Proof.
  repeat split.
  intros [H _]. inversion H; subst. discriminate.
Qed.

(** ** The adapter: what a call does to the object                        *)

Section JaxEnvFacts.

Variables StateType Key InfoType RenderStateType ImageType : Type.
Variable rt : Runtime Key.

Local Abbreviation World := (world StateType Key InfoType RenderStateType ImageType).
Local Abbreviation Self := (JaxEnv StateType Key InfoType RenderStateType ImageType).

Lemma advance_eq (a : pyval) (self : Self)
    (log : list (event RenderStateType)) (st : StateType) :
  state self = Some st ->
  advance rt a (self, log)
  = (let keys := split rt (rng self) in
     let fe := func_env self in
     let st' := transition fe st a (fst keys) in
     (rbind (_convert_jax_to_numpy (observation fe st)) (fun o =>
      rbind (py_float rt (reward fe st a st')) (fun r =>
      rbind (py_bool rt (terminal fe st')) (fun t =>
      Ok (o, r, t, false, step_info fe st a st')))),
      (set_state st' (set_rng (snd keys) self), log))).
Proof.
  intros Hst. unfold advance, split_rng, get_state, bind, ret, lift,
    get_self, modify. simpl. rewrite Hst. simpl.
  destruct (_convert_jax_to_numpy _); simpl; [|reflexivity].
  destruct (py_float rt _); simpl; [|reflexivity].
  destruct (py_bool rt _); reflexivity.
Qed.

Lemma advance_unset (a : pyval) (self : Self)
    (log : list (event RenderStateType)) :
  state self = None ->
  advance rt a (self, log)
  = (Err (AttributeError "state"), (set_rng (snd (split rt (rng self))) self, log)).
Proof.
  intros Hst. unfold advance, split_rng, get_state, bind, ret, lift,
    get_self, modify. simpl. rewrite Hst. reflexivity.
Qed.

Lemma step_eq (a : pyval) (self : Self) (log : list (event RenderStateType)) :
  step rt a (self, log)
  = match check_action rt self a with
    | Ok a' => advance rt a' (self, log)
    | Err e => (Err e, (self, log))
    end.
Proof.
  unfold step, bind, lift, get_self. simpl.
  destruct (check_action rt self a); reflexivity.
Qed.

Lemma same_config_refl (self : Self) : same_config self self.
Proof. repeat split. Qed.

Lemma same_config_trans (s1 s2 s3 : Self) :
  same_config s1 s2 -> same_config s2 s3 -> same_config s1 s3.
Proof.
  intros (A1 & A2 & A3 & A4 & A5) (B1 & B2 & B3 & B4 & B5).
  repeat split; congruence.
Qed.

Lemma flag_consistent_config (s1 s2 : Self) :
  same_config s1 s2 -> flag_consistent s1 -> flag_consistent s2.
Proof.
  intros (_ & _ & A3 & _ & A5). unfold flag_consistent. congruence.
Qed.

(** [reset] either rejects the seed and assigns nothing, or reseeds (when
    a seed is given), splits the stream, stores the initial state and only
    then converts the observation. *)
Lemma reset_eq (seed : option Z) (self : Self)
    (log : list (event RenderStateType)) :
  reset rt seed (self, log)
  = match seed_rejection seed with
    | Some e => (Err e, (self, log))
    | None =>
        let self0 := match seed with
                     | Some s => set_rng (PRNGKey rt s) self
                     | None => self
                     end in
        let fe := func_env self in
        let keys := split rt (rng self0) in
        let st := initial fe (fst keys) in
        (rmap (fun o => (o, state_info fe st))
              (_convert_jax_to_numpy (observation fe st)),
         (set_state st (set_rng (snd keys) self0), log))
    end.
Proof.
  unfold reset, seed_rejection, super_reset, make_key, split_rng, bind, ret,
    lift, get_self, modify.
  destruct seed as [s|]; simpl.
  - destruct (s <? 0)%Z; simpl; [reflexivity|].
    destruct (fits_int64 s); simpl; [|reflexivity].
    destruct (_convert_jax_to_numpy _); reflexivity.
  - destruct (_convert_jax_to_numpy _); reflexivity.
Qed.

Lemma valid_seed_accepted (s : Z) :
  valid_seed s = true -> seed_rejection (Some s) = None.
Proof.
  unfold valid_seed, seed_rejection, super_reset, fits_int64.
  intros H. apply andb_true_iff in H. destruct H as [H0 H1].
  apply Z.leb_le in H0. apply Z.ltb_lt in H1.
  destruct (s <? 0)%Z eqn:E; [apply Z.ltb_lt in E; lia|].
  assert (Hlo : (- 2 ^ 63 <=? s)%Z = true) by (apply Z.leb_le; lia).
  assert (Hhi : (s <? 2 ^ 63)%Z = true) by (apply Z.ltb_lt; lia).
  rewrite Hlo, Hhi. reflexivity.
Qed.

Lemma reset_config (seed : option Z) (w : World) :
  same_config (fst w) (fst (snd (reset rt seed w))).
Proof.
  destruct w as [self log]. rewrite reset_eq.
  destruct (seed_rejection seed); [apply same_config_refl|].
  destruct seed; simpl; repeat split.
Qed.

Lemma advance_config (a : pyval) (w : World) :
  same_config (fst w) (fst (snd (advance rt a w))).
Proof.
  destruct w as [self log].
  destruct (state self) as [st|] eqn:Hst.
  - rewrite (advance_eq a self log Hst). simpl. repeat split.
  - rewrite (advance_unset a self log Hst). simpl. repeat split.
Qed.

Lemma step_config (a : pyval) (w : World) :
  same_config (fst w) (fst (snd (step rt a w))).
Proof.
  destruct w as [self log]. rewrite step_eq.
  destruct (check_action rt self a).
  - apply advance_config.
  - apply same_config_refl.
Qed.

Lemma render_config (w : World) :
  same_config (fst w) (fst (snd (render w))).
Proof.
  destruct w as [self log].
  unfold render, get_state, bind, ret, raise, get_self, modify. simpl.
  destruct (is_rgb_array (render_mode self)); simpl; [|repeat split].
  destruct (state self); simpl; repeat split.
Qed.

Lemma close_config (w : World) :
  same_config (fst w) (fst (snd (close w))).
Proof.
  destruct w as [self log].
  unfold close, bind, ret, get_self, modify, emit. simpl.
  destruct (render_state self); simpl; repeat split.
Qed.

Lemma run_call_config (c : call) (w : World) :
  same_config (fst w) (fst (run_call rt c w)).
Proof.
  destruct c; simpl;
    [apply reset_config | apply step_config | apply render_config
    | apply close_config].
Qed.

Lemma run_calls_config (cs : list call) (w : World) :
  same_config (fst w) (fst (run_calls rt cs w)).
Proof.
  revert w. induction cs as [|c cs IH]; intros w; simpl.
  - apply same_config_refl.
  - eapply same_config_trans; [apply run_call_config|apply IH].
Qed.

Lemma init_consistent (fe : FuncEnv StateType Key InfoType RenderStateType ImageType)
    (obs_space act_space : Space) (mode : option string) (u : Z) :
  flag_consistent (fst (JaxEnv_init rt fe obs_space act_space mode u)) /\
  action_space (fst (JaxEnv_init rt fe obs_space act_space mode u)) = act_space.
Proof.
  unfold JaxEnv_init, flag_consistent.
  destruct (is_rgb_array mode); simpl; split; reflexivity.
Qed.

Lemma reachable_consistent (fe : FuncEnv StateType Key InfoType RenderStateType ImageType)
    (obs_space act_space : Space) (mode : option string) (u : Z)
    (cs : list call) :
  let w := run_calls rt cs (JaxEnv_init rt fe obs_space act_space mode u) in
  flag_consistent (fst w) /\ action_space (fst w) = act_space.
Proof.
  intros w.
  pose proof (run_calls_config cs (JaxEnv_init rt fe obs_space act_space mode u))
    as Hcfg.
  destruct (init_consistent fe obs_space act_space mode u) as [Hc Ha].
  split.
  - eapply flag_consistent_config; eassumption.
  - destruct Hcfg as (_ & _ & H3 & _). unfold w. congruence.
Qed.

End JaxEnvFacts.

(** ** The adapter: [step]                                                *)

Section StepFacts.

Variables StateType Key InfoType RenderStateType ImageType : Type.
Variable rt : Runtime Key.

Local Abbreviation World := (world StateType Key InfoType RenderStateType ImageType).
Local Abbreviation Self := (JaxEnv StateType Key InfoType RenderStateType ImageType).
Local Abbreviation Bundle := (FuncEnv StateType Key InfoType RenderStateType ImageType).

(** C1.  After a reset (the state is set), [step] returns normally exactly
    when the action passes the first statement and the three conversions
    succeed; the observation it returns is then the converted observation
    of the state held before the transition, while the reward, the
    termination flag and the info are computed with the next state, which
    is the state the adapter holds afterwards. *)
Theorem step_observation_from_pre_transition_state
    (a : pyval) (self : Self) (log : list (event RenderStateType))
    (st : StateType)
    (o : pyval) (r : Q) (t tr : bool) (info : InfoType) (w' : World) :
  state self = Some st ->
  (step rt a (self, log) = (Ok (o, r, t, tr, info), w') <->
   exists a' : pyval,
     check_action rt self a = Ok a' /\
     let fe := func_env self in
     let keys := split rt (rng self) in
     let st' := transition fe st a' (fst keys) in
     _convert_jax_to_numpy (observation fe st) = Ok o /\
     py_float rt (reward fe st a' st') = Ok r /\
     py_bool rt (terminal fe st') = Ok t /\
     tr = false /\
     info = step_info fe st a' st' /\
     w' = (set_state st' (set_rng (snd keys) self), log)).
Proof.
  intros Hst. rewrite step_eq. split.
  - destruct (check_action rt self a) as [a'|e]; [|discriminate].
    rewrite (advance_eq rt a' self log Hst). cbv zeta.
    intros H. exists a'. split; [reflexivity|].
    destruct (_convert_jax_to_numpy _) as [o0|]; simpl in H; [|discriminate].
    destruct (py_float rt _) as [r0|]; simpl in H; [|discriminate].
    destruct (py_bool rt _) as [t0|]; simpl in H; [|discriminate].
    inversion H; subst. repeat split; reflexivity.
  - intros (a' & Hchk & Ho & Hr & Ht & Htr & Hinfo & Hw).
    rewrite Hchk, (advance_eq rt a' self log Hst). cbv zeta.
    rewrite Ho, Hr, Ht. simpl. subst. reflexivity.
Qed.

(** C3.  Whenever [step] returns, the truncated flag of the 5-tuple is
    [False], the reward is Python's [float] of what the bundle's reward
    function gave and the terminated flag is Python's [bool] of what the
    bundle's terminal function gave -- for every action, state and
    function bundle. *)
Theorem step_returns_float_bool_and_never_truncates
    (a : pyval) (w : World)
    (o : pyval) (r : Q) (t tr : bool) (info : InfoType) (w' : World) :
  step rt a w = (Ok (o, r, t, tr, info), w') ->
  tr = false /\
  exists (st : StateType) (a' : pyval),
    state (fst w) = Some st /\
    check_action rt (fst w) a = Ok a' /\
    let fe := func_env (fst w) in
    let st' := transition fe st a' (fst (split rt (rng (fst w)))) in
    py_float rt (reward fe st a' st') = Ok r /\
    py_bool rt (terminal fe st') = Ok t.
Proof.
  destruct w as [self log]. simpl. rewrite step_eq. intros H.
  destruct (check_action rt self a) as [a'|e]; [|discriminate].
  destruct (state self) as [st|] eqn:Hst.
  - rewrite (advance_eq rt a' self log Hst) in H. cbv zeta in H.
    destruct (_convert_jax_to_numpy _) as [o0|]; simpl in H; [|discriminate].
    destruct (py_float rt _) as [r0|] eqn:Hr; simpl in H; [|discriminate].
    destruct (py_bool rt _) as [t0|] eqn:Ht; simpl in H; [|discriminate].
    inversion H; subst. split; [reflexivity|].
    exists st, a'. repeat split; assumption.
  - rewrite (advance_unset rt a' self log Hst) in H. discriminate.
Qed.

(** C4.  When the action space is not a Box (a discrete space in
    particular) and the action fails the membership test, [step] raises an
    assertion error whose message formats the action ([repr]) and its type,
    and the object -- state, random stream, everything -- is what it was
    before the call: the error comes before the split and the transition. *)
Theorem step_invalid_action_raises_and_changes_nothing
    (a : pyval) (self : Self) (log : list (event RenderStateType)) :
  flag_consistent self ->
  isinstance_Box (action_space self) = false ->
  contains rt (action_space self) a = false ->
  let msg := [FRepr a; Lit " ("; FType a; Lit ") invalid"] in
  step rt a (self, log) = (Err (AssertionError msg), (self, log)) /\
  mentions_value msg a /\
  mentions_type msg a.
Proof.
  intros Hflag Hbox Hmem msg. split; [|split].
  - rewrite step_eq. unfold check_action.
    rewrite Hflag, Hbox, Hmem. reflexivity.
  - unfold mentions_value, msg. apply Exists_cons_hd. right. reflexivity.
  - unfold mentions_type, msg. simpl. auto.
Qed.

(** C10.  On an adapter built by the constructor, after any calls, the
    branch [step] takes is fixed by whether the action space given to the
    constructor is a Box.  For a Box the action is clipped and the result
    does not depend on the membership test; for every other space --
    discrete or not -- the membership test decides, and the action that
    goes on to the transition is the one given, not a clipped one. *)
Theorem step_branch_fixed_by_action_space_kind
    (fe : Bundle) (obs_space act_space : Space) (mode : option string)
    (u : Z) (cs : list call) (a : pyval) (c : Space -> pyval -> bool) :
  let w := run_calls rt cs (JaxEnv_init rt fe obs_space act_space mode u) in
  match act_space with
  | Box b =>
      step rt a w
      = match NumPy.clip a (low b) (high b) with
        | Ok a' => advance rt a' w
        | Err e => (Err e, w)
        end /\
      step (with_contains c rt) a w = step rt a w
  | _ =>
      step rt a w
      = if contains rt act_space a
        then advance rt a w
        else (Err (AssertionError [FRepr a; Lit " ("; FType a; Lit ") invalid"]), w)
  end.
Proof.
  intros w.
  destruct (reachable_consistent rt fe obs_space act_space mode u cs)
    as [Hflag Hsp]. fold w in Hflag, Hsp.
  destruct w as [self log]. simpl in Hflag, Hsp.
  unfold flag_consistent in Hflag.
  rewrite !step_eq. unfold check_action. simpl contains.
  rewrite Hflag, Hsp.
  destruct act_space as [b| | |]; simpl.
  - split; [reflexivity|].
    destruct (NumPy.clip a (low b) (high b)); reflexivity.
  - destruct (contains rt _ a); reflexivity.
  - destruct (contains rt _ a); reflexivity.
  - destruct (contains rt _ a); reflexivity.
Qed.

End StepFacts.

(** ** The adapter: seeding, [reset], [render] and [close]                *)

Lemma default_seed_range (u : Z) : (0 <= default_seed u <= 2 ^ 32 - 2)%Z.
Proof.
  unfold default_seed, integers.
  pose proof (Z.mod_pos_bound u (2 ^ 32 - 1 - 0)) as H. lia.
Qed.

Lemma default_seed_attained (s : Z) :
  (0 <= s <= 2 ^ 32 - 2)%Z -> default_seed s = s.
Proof.
  intros H. unfold default_seed, integers.
  rewrite Z.mod_small; lia.
Qed.

(** C9.  Whatever the seed source draws, the seed of an adapter built
    without one is never 2^32 - 1: the upper end of the draw is exclusive,
    so the largest 32-bit unsigned integer is not a possible default seed
    (every seed from 0 to 2^32 - 2 is). *)
Theorem default_seed_never_uint32_max :
  (forall u : Z, default_seed u <> 2 ^ 32 - 1)%Z /\
  (forall u : Z, 0 <= default_seed u <= 2 ^ 32 - 2)%Z /\
  default_seed (2 ^ 32 - 2) = (2 ^ 32 - 2)%Z /\
  default_seed (2 ^ 32 - 1) = 0%Z.
Proof.
  split; [|split; [|split]].
  - intros u. pose proof (default_seed_range u). lia.
  - apply default_seed_range.
  - reflexivity.
  - reflexivity.
Qed.

Section LifecycleFacts.

Variables StateType Key InfoType RenderStateType ImageType : Type.
Variable rt : Runtime Key.

Local Abbreviation World := (world StateType Key InfoType RenderStateType ImageType).
Local Abbreviation Bundle := (FuncEnv StateType Key InfoType RenderStateType ImageType).

(** C5.  For a valid seed [s], two adapters built from the same
    arguments, whatever entropy their constructors drew, and each reset
    with the seed [s], return the same observation and info (or raise the
    same error) and are the same object afterwards; what is returned is a
    function of the bundle and of [s] alone. *)
Theorem reset_with_seed_is_deterministic
    (fe : Bundle) (obs_space act_space : Space) (mode : option string)
    (u1 u2 : Z) (s : Z) :
  valid_seed s = true ->
  reset rt (Some s) (JaxEnv_init rt fe obs_space act_space mode u1)
  = reset rt (Some s) (JaxEnv_init rt fe obs_space act_space mode u2) /\
  fst (reset rt (Some s) (JaxEnv_init rt fe obs_space act_space mode u1))
  = (let st := initial fe (fst (split rt (PRNGKey rt s))) in
     rmap (fun o => (o, state_info fe st))
          (_convert_jax_to_numpy (observation fe st))).
Proof.
  intros Hs. apply valid_seed_accepted in Hs.
  unfold JaxEnv_init.
  destruct (is_rgb_array mode); rewrite !reset_eq, Hs; simpl;
    split; reflexivity.
Qed.

Lemma reset_held (seed : option Z) (w : World) :
  render_state_held w -> render_state_held (snd (reset rt seed w)).
Proof.
  destruct w as [self log]. unfold render_state_held. rewrite reset_eq.
  destruct (seed_rejection seed); [auto|].
  destruct seed; simpl; auto.
Qed.

Lemma step_held (a : pyval) (w : World) :
  render_state_held w -> render_state_held (snd (step rt a w)).
Proof.
  destruct w as [self log]. unfold render_state_held. rewrite step_eq.
  destruct (check_action rt self a) as [a'|e]; [|auto].
  destruct (state self) as [st|] eqn:Hst.
  - rewrite (advance_eq rt a' self log Hst). simpl. auto.
  - rewrite (advance_unset rt a' self log Hst). simpl. auto.
Qed.

Lemma render_held (w : World) :
  render_state_held w -> render_state_held (snd (render w)).
Proof.
  destruct w as [self log]. unfold render_state_held.
  unfold render, get_state, bind, ret, raise, get_self, modify. simpl.
  intros (Hm & Hrs & Hlog). rewrite Hm.
  destruct (state self) eqn:Hst; simpl; rewrite ?Hst; simpl;
    (split; [assumption|split; [eauto|assumption]]).
Qed.

Lemma run_calls_held (cs : list call) (w : World) :
  existsb is_close cs = false ->
  render_state_held w -> render_state_held (run_calls rt cs w).
Proof.
  revert w. induction cs as [|c cs IH]; intros w Hcs Hw; simpl in *;
    [assumption|].
  apply orb_false_iff in Hcs. destruct Hcs as [Hc Hcs].
  apply IH; [assumption|]. destruct c; simpl; try discriminate;
    [now apply reset_held | now apply step_held | now apply render_held].
Qed.

(** C8, with the acquisition where the code has it.  An adapter
    configured for image-array rendering acquires the render state in its
    constructor: it exists before any call of [render].  It is kept through
    any calls of [reset], [step] and [render]; the first [close] then
    releases it once and clears it, and a second [close] raises nothing and
    changes nothing, so the log holds exactly one release. *)
Theorem render_state_acquired_at_construction_released_once
    (fe : Bundle) (obs_space act_space : Space) (u : Z) (cs : list call) :
  existsb is_close cs = false ->
  let w0 := JaxEnv_init rt fe obs_space act_space (Some "rgb_array"%string) u in
  let w1 := run_calls rt cs w0 in
  render_state (fst w0) = Some (render_init fe) /\
  snd w0 = [EvRenderInit] /\
  exists rs : RenderStateType,
    render_state (fst w1) = Some rs /\
    snd w1 = [EvRenderInit] /\
    let w2 := snd (close w1) in
    fst (close w1) = Ok tt /\
    render_state (fst w2) = None /\
    snd w2 = [EvRenderInit; EvRenderClose rs] /\
    close w2 = (Ok tt, w2) /\
    releases (snd (snd (close w2))) = 1%nat.
Proof.
  intros Hcs w0 w1.
  assert (H0 : render_state_held w0).
  { unfold w0, render_state_held, JaxEnv_init. simpl. eauto. }
  pose proof (run_calls_held cs Hcs H0) as H1. fold w1 in H1.
  split; [reflexivity|]. split; [reflexivity|].
  destruct H1 as (_ & (rs & Hrs) & Hlog).
  exists rs. destruct w1 as [self log]. simpl in Hrs, Hlog.
  unfold close, bind, ret, get_self, modify, emit. simpl.
  rewrite Hrs. simpl. rewrite Hlog. simpl. repeat split.
Qed.

End LifecycleFacts.

(** ** The array-representation normalizer                                *)

Section ConvertFacts.

Local Abbreviation cannot_convert x :=
  (TypeError [Lit "Cannot convert "; FStr x; Lit " to numpy"]).

(** The two outcomes of the normalizer on a value. *)
Local Abbreviation outcome v :=
  ((convertible v = true /\
    exists w, _convert_jax_to_numpy v = Ok w /\ normalized v w) \/
   (convertible v = false /\
    exists x, occurs_in x v /\ recognized x = false /\
              _convert_jax_to_numpy v = Err (cannot_convert x))).

Lemma mapM_outcome (es : list pyval) :
  Forall (fun e => outcome e) es ->
  (forallb convertible es = true /\
   exists ws, mapM _convert_jax_to_numpy es = Ok ws /\ Forall2 normalized es ws) \/
  (forallb convertible es = false /\
   exists e x, In e es /\ occurs_in x e /\ recognized x = false /\
               mapM _convert_jax_to_numpy es = Err (cannot_convert x)).
Proof.
  induction 1 as [|e es He _ IH]; simpl.
  - left. split; [reflexivity|]. exists []. split; constructor.
  - destruct He as [(Hc & w & Hw & Hn)|(Hc & x & Hx & Hr & Hw)];
      rewrite Hc, Hw; simpl.
    + destruct IH as [(Hcs & ws & Hws & Hns)|(Hcs & e' & x & Hin & Hx & Hr & Hws)];
        rewrite Hws; simpl.
      * left. split; [assumption|]. exists (w :: ws).
        split; [reflexivity|]. constructor; assumption.
      * right. split; [assumption|]. exists e', x. auto.
    + right. split; [reflexivity|]. exists e, x. auto.
Qed.

Lemma mapM_dict_outcome (kvs : list (string * pyval)) :
  Forall (fun kv => outcome (snd kv)) kvs ->
  (forallb (fun kv => convertible (snd kv)) kvs = true /\
   exists kws,
     mapM (fun kv => rmap (pair (fst kv)) (_convert_jax_to_numpy (snd kv))) kvs
     = Ok kws /\
     Forall2 (fun kv kw => fst kv = fst kw /\ normalized (snd kv) (snd kw))
             kvs kws) \/
  (forallb (fun kv => convertible (snd kv)) kvs = false /\
   exists kv x, In kv kvs /\ occurs_in x (snd kv) /\ recognized x = false /\
     mapM (fun kv => rmap (pair (fst kv)) (_convert_jax_to_numpy (snd kv))) kvs
     = Err (cannot_convert x)).
Proof.
  induction 1 as [|[k v] kvs He _ IH]; simpl in *.
  - left. split; [reflexivity|]. exists []. split; constructor.
  - destruct He as [(Hc & w & Hw & Hn)|(Hc & x & Hx & Hr & Hw)];
      rewrite Hc, Hw; simpl.
    + destruct IH as [(Hcs & ws & Hws & Hns)|(Hcs & e' & x & Hin & Hx & Hr & Hws)];
        rewrite Hws; simpl.
      * left. split; [assumption|]. exists ((k, w) :: ws).
        split; [reflexivity|]. constructor; [split|]; auto.
      * right. split; [assumption|]. exists e', x. auto.
    + right. split; [reflexivity|]. exists (k, v), x. auto.
Qed.

Lemma convert_outcome (v : pyval) : outcome v.
Proof.
  induction v as [a|a|es IH|es IH|kvs IH| | | |] using pyval_ind'.
  - left. split; [reflexivity|]. exists (NpArray a). split; constructor.
  - right. split; [reflexivity|]. exists (NpArray a).
    repeat split; constructor.
  - destruct (mapM_outcome IH) as [(Hc & ws & Hws & Hn)|(Hc & e & x & Hin & Hx & Hr & Hws)].
    + left. split; [exact Hc|]. exists (PyTuple ws). simpl. rewrite Hws.
      split; [reflexivity|constructor; assumption].
    + right. split; [exact Hc|]. exists x. simpl. rewrite Hws.
      repeat split; [eapply occ_tuple; eassumption|assumption].
  - destruct (mapM_outcome IH) as [(Hc & ws & Hws & Hn)|(Hc & e & x & Hin & Hx & Hr & Hws)].
    + left. split; [exact Hc|]. exists (PyList ws). simpl. rewrite Hws.
      split; [reflexivity|constructor; assumption].
    + right. split; [exact Hc|]. exists x. simpl. rewrite Hws.
      repeat split; [eapply occ_list; eassumption|assumption].
  - destruct (mapM_dict_outcome IH) as [(Hc & ws & Hws & Hn)|(Hc & e & x & Hin & Hx & Hr & Hws)].
    + left. split; [exact Hc|]. exists (PyDict ws). simpl. rewrite Hws.
      split; [reflexivity|constructor; assumption].
    + right. split; [exact Hc|]. exists x. simpl. rewrite Hws.
      repeat split; [eapply occ_dict; eassumption|assumption].
  - right. split; [reflexivity|]. exists PyNone. repeat split; constructor.
  - right. split; [reflexivity|]. exists (PyBool b). repeat split; constructor.
  - right. split; [reflexivity|]. exists (PyInt z). repeat split; constructor.
  - right. split; [reflexivity|]. exists (PyFloat q). repeat split; constructor.
Qed.

(** C7.  On every value the normalizer has exactly one of three outcomes.
    A value of a type it does not recognize (anything but a JAX array, a
    tuple, a list or a dictionary) raises the type error whose message
    formats that very value.  A value built from JAX arrays, tuples, lists
    and dictionaries alone is returned with each array turned into a plain
    array and every container kept as it was: same kind, same length and
    order, same keys.  A container that holds, at some depth, a value of an
    unrecognized type raises the type error whose message formats that
    value.  Nothing is passed through unconverted. *)
Theorem convert_jax_to_numpy_total_or_type_error (v : pyval) :
  (recognized v = false /\
   _convert_jax_to_numpy v = Err (cannot_convert v)) \/
  (convertible v = true /\
   exists w, _convert_jax_to_numpy v = Ok w /\ normalized v w) \/
  (recognized v = true /\ convertible v = false /\
   exists x, occurs_in x v /\ recognized x = false /\
             _convert_jax_to_numpy v = Err (cannot_convert x)).
Proof.
  destruct (recognized v) eqn:Hrec.
  - right. destruct (convert_outcome v) as [H|(Hc & H)].
    + left. exact H.
    + right. auto.
  - left. split; [reflexivity|].
    destruct v; simpl in Hrec; try discriminate; reflexivity.
Qed.

End ConvertFacts.

(** A nested observation: a dictionary of a tuple and a list of arrays. *)
Example convert_nested :
  _convert_jax_to_numpy
    (PyDict [("pos"%string, PyTuple [JaxArray (mk_ndarray [2%nat] [1; 2]);
                                      JaxArray (mk_ndarray [1%nat] [3])]);
             ("vel"%string, PyList [JaxArray (mk_ndarray [] [4])])])
  = Ok (PyDict [("pos"%string, PyTuple [NpArray (mk_ndarray [2%nat] [1; 2]);
                                         NpArray (mk_ndarray [1%nat] [3])]);
                ("vel"%string, PyList [NpArray (mk_ndarray [] [4])])]).
Proof. reflexivity. Qed.

(** A Python float inside a tuple is reported, not passed through. *)
Example convert_rejects_nested_float :
  _convert_jax_to_numpy
    (PyTuple [JaxArray (mk_ndarray [1%nat] [1]); PyFloat 2;
              JaxArray (mk_ndarray [1%nat] [3])])
  = Err (TypeError [Lit "Cannot convert "; FStr (PyFloat 2); Lit " to numpy"]).
Proof. reflexivity. Qed.

(** A NumPy array is not a JAX array: it is rejected as well. *)
Example convert_rejects_numpy_array :
  _convert_jax_to_numpy (NpArray (mk_ndarray [1%nat] [1]))
  = Err (TypeError [Lit "Cannot convert ";
                    FStr (NpArray (mk_ndarray [1%nat] [1])); Lit " to numpy"]).
Proof. reflexivity. Qed.

(** ** The observation-flatten wrapper                                    *)

Module FlattenFacts.
Import FlattenObservation.

(** The single-instance wrapper keeps its promise: a conforming
    observation comes out with the shape of the declared space. *)
Lemma observation_matches_declared_space (e : Env) (o : ndarray) :
  well_shaped (low (observation_space e)) ->
  conforms (observation_space e) o ->
  shape (observation (_FlattenObservation_init e) o)
  = space_shape (declared_observation_space (_FlattenObservation_init e)).
Proof.
  intros Hlow (Hs & Ho).
  unfold observation, _FlattenObservation_init, flatten, flatten_space,
    space_shape, ndarray_flatten, well_shaped in *. simpl.
  f_equal. congruence.
Qed.

(** The declared batched space has two axes: instances, then entries. *)
Lemma declared_batched_shape (single : BoxSpace) (n : nat) :
  space_shape
    (declared_vec_observation_space
       (_VectorFlattenObservation_init (make_vector_env single n)))
  = [n; length (data (low single))].
Proof. reflexivity. Qed.

(** The batched wrapper returns one axis holding every entry of the batch. *)
Lemma vec_observation_shape (single : BoxSpace) (n : nat) (o : ndarray) :
  conforms (vec_observation_space (make_vector_env single n)) o ->
  shape (vec_observation
           (_VectorFlattenObservation_init (make_vector_env single n)) o)
  = [(n * size_of (shape (low single)))%nat].
Proof.
  intros (Hs & Ho). simpl in *. unfold well_shaped in Ho.
  rewrite Ho, Hs. reflexivity.
Qed.

Lemma vec_observation_never_matches (single : BoxSpace) (n : nat) (o : ndarray) :
  shape (vec_observation
           (_VectorFlattenObservation_init (make_vector_env single n)) o)
  <> space_shape
       (declared_vec_observation_space
          (_VectorFlattenObservation_init (make_vector_env single n))).
Proof. simpl. discriminate. Qed.

End FlattenFacts.

(** C2.  Two environments with observations of shape (3,): the wrapped
    vector environment yields observations of shape (2, 3) and the wrapper
    declares the space of shape (2, 3), yet its [observation] returns the
    six entries on a single axis -- the leading axis is 6, not the number
    of environments, and the shape is not the declared one. *)
Theorem vector_flatten_observation_drops_batch_axis :
  let single := mk_Box (mk_ndarray [3%nat] [0; 0; 0]) (mk_ndarray [3%nat] [1; 1; 1]) in
  let venv := FlattenObservation.make_vector_env single 2 in
  let w := FlattenObservation._VectorFlattenObservation_init venv in
  let o := mk_ndarray [2%nat; 3%nat] [0; 1; 0; 1; 1; 0] in
  conforms (FlattenObservation.vec_observation_space venv) o /\
  FlattenObservation.space_shape
    (FlattenObservation.declared_vec_observation_space w) = [2%nat; 3%nat] /\
  FlattenObservation.vec_observation w o
  = mk_ndarray [6%nat] [0; 1; 0; 1; 1; 0] /\
  shape (FlattenObservation.vec_observation w o)
  <> FlattenObservation.space_shape
       (FlattenObservation.declared_vec_observation_space w).
Proof.
  simpl. repeat split; discriminate.
Qed.

(** ** The adapter on the counter environment                             *)

(** Reset with seed 7 puts the counter at 5; adding 2 returns the
    observation of 5 while the adapter moves on to 7. *)
Example step_counter_run :
  let w := snd (reset Toy.runtime (Some 7%Z) (Toy.discrete_env 0)) in
  fst (step Toy.runtime (PyInt 2) w)
  = Ok (NpArray (mk_ndarray [1%nat] [5]), 2, false, false, 7%Z) /\
  state (fst (snd (step Toy.runtime (PyInt 2) w))) = Some 7%Z /\
  _convert_jax_to_numpy (observation Toy.counter 7%Z)
  = Ok (NpArray (mk_ndarray [1%nat] [7])).
Proof. repeat split. Qed.

(** Without a seed the first observation follows the entropy drawn by the
    constructor. *)
Example reset_without_seed_follows_entropy :
  fst (reset Toy.runtime None (Toy.discrete_env 0))
  = Ok (NpArray (mk_ndarray [1%nat] [1]), 1%Z) /\
  fst (reset Toy.runtime None (Toy.discrete_env 1))
  = Ok (NpArray (mk_ndarray [1%nat] [3]), 3%Z).
Proof. split; reflexivity. Qed.

(** A [step] before any [reset] has already advanced the random stream
    when the missing state is noticed. *)
Example step_before_reset :
  fst (step Toy.runtime (PyInt 2) (Toy.discrete_env 0))
  = Err (AttributeError "state") /\
  rng (fst (Toy.discrete_env 0)) = 0%Z /\
  rng (fst (snd (step Toy.runtime (PyInt 2) (Toy.discrete_env 0)))) = 2%Z.
Proof. repeat split. Qed.

Lemma step_observation_from_pre_transition_state_witness :
  let w := snd (reset Toy.runtime (Some 7%Z) (Toy.discrete_env 0)) in
  state (fst w) = Some 5%Z /\
  exists a' : pyval,
    check_action Toy.runtime (fst w) (PyInt 2) = Ok a' /\
    let st' := transition Toy.counter 5%Z a' (fst (split Toy.runtime (rng (fst w)))) in
    _convert_jax_to_numpy (observation Toy.counter 5%Z)
    = Ok (NpArray (mk_ndarray [1%nat] [5])) /\
    py_float Toy.runtime (reward Toy.counter 5%Z a' st') = Ok 2 /\
    py_bool Toy.runtime (terminal Toy.counter st') = Ok false /\
    false = false /\
    7%Z = step_info Toy.counter 5%Z a' st' /\
    snd (step Toy.runtime (PyInt 2) w)
    = (set_state st' (set_rng (snd (split Toy.runtime (rng (fst w)))) (fst w)), []).
Proof.
  split; [reflexivity|].
  apply (proj1 (@step_observation_from_pre_transition_state
                  Z Z Z nat Z Toy.runtime (PyInt 2)
                  (fst (snd (reset Toy.runtime (Some 7%Z) (Toy.discrete_env 0))))
                  [] 5%Z
                  (NpArray (mk_ndarray [1%nat] [5])) 2 false false 7%Z
                  (snd (step Toy.runtime (PyInt 2)
                          (snd (reset Toy.runtime (Some 7%Z) (Toy.discrete_env 0)))))
                  eq_refl)).
  reflexivity.
Defined.

Lemma step_returns_float_bool_and_never_truncates_witness :
  let w := snd (reset Toy.runtime (Some 7%Z) (Toy.discrete_env 0)) in
  step Toy.runtime (PyInt 2) w
  = (Ok (NpArray (mk_ndarray [1%nat] [5]), 2, false, false, 7%Z),
     snd (step Toy.runtime (PyInt 2) w)) /\
  (false = false /\
   exists (st : Z) (a' : pyval),
     state (fst w) = Some st /\
     check_action Toy.runtime (fst w) (PyInt 2) = Ok a' /\
     let st' := transition Toy.counter st a' (fst (split Toy.runtime (rng (fst w)))) in
     py_float Toy.runtime (reward Toy.counter st a' st') = Ok 2 /\
     py_bool Toy.runtime (terminal Toy.counter st') = Ok false).
Proof.
  split; [reflexivity|].
  apply (@step_returns_float_bool_and_never_truncates
           Z Z Z nat Z Toy.runtime (PyInt 2)
           (snd (reset Toy.runtime (Some 7%Z) (Toy.discrete_env 0)))
           (NpArray (mk_ndarray [1%nat] [5])) 2 false false 7%Z
           (snd (step Toy.runtime (PyInt 2)
                   (snd (reset Toy.runtime (Some 7%Z) (Toy.discrete_env 0)))))).
  reflexivity.
Defined.

Lemma step_invalid_action_raises_and_changes_nothing_witness :
  let self := fst (snd (reset Toy.runtime (Some 7%Z) (Toy.discrete_env 0))) in
  (flag_consistent self /\
   isinstance_Box (action_space self) = false /\
   contains Toy.runtime (action_space self) (PyInt 5) = false) /\
  let msg := [FRepr (PyInt 5); Lit " ("; FType (PyInt 5); Lit ") invalid"] in
  step Toy.runtime (PyInt 5) (self, [])
  = (Err (AssertionError msg), (self, [])) /\
  mentions_value msg (PyInt 5) /\
  mentions_type msg (PyInt 5).
Proof.
  split; [repeat split|].
  apply (@step_invalid_action_raises_and_changes_nothing
           Z Z Z nat Z Toy.runtime (PyInt 5)
           (fst (snd (reset Toy.runtime (Some 7%Z) (Toy.discrete_env 0)))) []);
    reflexivity.
Defined.

(** The render state of an adapter in image-array mode is there as soon as
    the constructor returns, with no call of [render] made. *)
Lemma render_state_exists_before_first_render :
  render_state (fst (Toy.rgb_env 0)) <> None /\
  acquisitions (snd (Toy.rgb_env 0)) = 1%nat.
Proof.
  split; [discriminate|reflexivity].
Qed.

Lemma render_state_acquired_at_construction_released_once_witness :
  let cs := [CallReset (Some 7%Z); CallRender; CallStep (PyInt 2); CallRender] in
  existsb is_close cs = false /\
  let w0 := Toy.rgb_env 0 in
  let w1 := run_calls Toy.runtime cs w0 in
  render_state (fst w0) = Some (render_init Toy.counter) /\
  snd w0 = [EvRenderInit] /\
  exists rs : nat,
    render_state (fst w1) = Some rs /\
    snd w1 = [EvRenderInit] /\
    let w2 := snd (close w1) in
    fst (close w1) = Ok tt /\
    render_state (fst w2) = None /\
    snd w2 = [EvRenderInit; EvRenderClose rs] /\
    close w2 = (Ok tt, w2) /\
    releases (snd (snd (close w2))) = 1%nat.
Proof.
  split; [reflexivity|].
  apply (@render_state_acquired_at_construction_released_once
           Z Z Z nat Z Toy.runtime Toy.counter (Box Toy.unit_box) (Discrete 3 0) 0
           [CallReset (Some 7%Z); CallRender; CallStep (PyInt 2); CallRender]).
  reflexivity.
Defined.

(* ===================================================================== *)
(** * Further properties of the code                                      *)
(* ===================================================================== *)

(** ** The adapter: what every call leaves behind                         *)

Section AdapterFacts.

Variables StateType Key InfoType RenderStateType ImageType : Type.
Variable rt : Runtime Key.

Local Abbreviation World := (world StateType Key InfoType RenderStateType ImageType).
Local Abbreviation Self := (JaxEnv StateType Key InfoType RenderStateType ImageType).
Local Abbreviation Bundle := (FuncEnv StateType Key InfoType RenderStateType ImageType).

(** The object after the optional reseeding of [reset]. *)
Local Abbreviation reseeded seed self :=
  (match seed with
   | Some s => set_rng (PRNGKey rt s) self
   | None => self
   end).

Lemma render_eq (self : Self) (log : list (event RenderStateType)) :
  render (self, log)
  = if is_rgb_array (render_mode self)
    then match state self with
         | Some st =>
             let out := render_image (func_env self) st (render_state self) in
             (Ok (snd out), (set_render_state (Some (fst out)) self, log))
         | None => (Err (AttributeError "state"), (self, log))
         end
    else (Err NotImplementedError, (self, log)).
Proof.
  unfold render, get_state, bind, ret, raise, get_self, modify. simpl.
  destruct (is_rgb_array (render_mode self)); [|reflexivity].
  destruct (state self) eqn:Hst; simpl; rewrite ?Hst; reflexivity.
Qed.

Lemma close_eq (self : Self) (log : list (event RenderStateType)) :
  close (self, log)
  = match render_state self with
    | Some rs => (Ok tt, (set_render_state None self, log ++ [EvRenderClose rs]))
    | None => (Ok tt, (self, log))
    end.
Proof.
  unfold close, bind, ret, get_self, modify, emit. simpl.
  destruct (render_state self) eqn:Hrs; simpl; rewrite ?Hrs; reflexivity.
Qed.

Lemma step_world_eq (a : pyval) (self : Self)
    (log : list (event RenderStateType)) :
  snd (step rt a (self, log))
  = match check_action rt self a with
    | Err _ => (self, log)
    | Ok a' =>
        let keys := split rt (rng self) in
        match state self with
        | None => (set_rng (snd keys) self, log)
        | Some st =>
            (set_state (transition (func_env self) st a' (fst keys))
               (set_rng (snd keys) self), log)
        end
    end.
Proof.
  rewrite step_eq. destruct (check_action rt self a) as [a'|e]; [|reflexivity].
  destruct (state self) as [st|] eqn:Hst.
  - rewrite (advance_eq rt a' self log Hst). reflexivity.
  - rewrite (advance_unset rt a' self log Hst). reflexivity.
Qed.

(** X1.  No call assigns what the constructor fixed: after any sequence of
    [reset], [step], [render] and [close], the function bundle, both
    spaces, the render mode and the cached Box flag are those the
    constructor was given, and the flag still tells whether the action
    space is a Box. *)
Theorem calls_keep_the_configuration
    (fe : Bundle) (obs_space act_space : Space) (mode : option string)
    (u : Z) (cs : list call) :
  let self := fst (run_calls rt cs (JaxEnv_init rt fe obs_space act_space mode u)) in
  func_env self = fe /\
  observation_space self = obs_space /\
  action_space self = act_space /\
  render_mode self = mode /\
  _is_box_action_space self = isinstance_Box act_space.
Proof.
  intros self.
  pose proof (run_calls_config rt cs (JaxEnv_init rt fe obs_space act_space mode u))
    as (H1 & H2 & H3 & H4 & H5).
  fold self in H1, H2, H3, H4, H5.
  unfold JaxEnv_init in *.
  destruct (is_rgb_array mode); simpl in *; repeat split; assumption.
Qed.

(** X2.  What [step] leaves behind does not depend on whether it returns.
    A failed action check changes nothing.  Once the check has passed, the
    random stream is advanced by one split, and with a state set the next
    state is committed -- also when [step] then raises because the
    observation, the reward or the flag cannot be converted; without a
    state (no [reset] yet) the stream is advanced all the same before the
    missing attribute is noticed.  The render state and the event log are
    never touched. *)
Theorem step_commits_before_it_converts
    (a : pyval) (self : Self) (log : list (event RenderStateType)) :
  snd (step rt a (self, log))
  = match check_action rt self a with
    | Err _ => (self, log)
    | Ok a' =>
        let keys := split rt (rng self) in
        match state self with
        | None => (set_rng (snd keys) self, log)
        | Some st =>
            (set_state (transition (func_env self) st a' (fst keys))
               (set_rng (snd keys) self), log)
        end
    end /\
  (forall a', check_action rt self a = Ok a' -> state self = None ->
     fst (step rt a (self, log)) = Err (AttributeError "state")) /\
  (forall a' st e, check_action rt self a = Ok a' -> state self = Some st ->
     _convert_jax_to_numpy (observation (func_env self) st) = Err e ->
     fst (step rt a (self, log)) = Err e).
Proof.
  split; [apply step_world_eq|split].
  - intros a' Hchk Hst. rewrite step_eq, Hchk.
    rewrite (advance_unset rt a' self log Hst). reflexivity.
  - intros a' st e Hchk Hst Hconv. rewrite step_eq, Hchk.
    rewrite (advance_eq rt a' self log Hst). cbv zeta. rewrite Hconv.
    reflexivity.
Qed.


(** X4.  The first [step] after a [reset] returns the observation the
    [reset] returned: both are the observation of the initial state. *)
Theorem first_step_repeats_the_reset_observation
    (seed : option Z) (a : pyval) (w w1 w2 : World)
    (obs o : pyval) (info i : InfoType) (r : Q) (t tr : bool) :
  reset rt seed w = (Ok (obs, info), w1) ->
  step rt a w1 = (Ok (o, r, t, tr, i), w2) ->
  o = obs.
Proof.
  destruct w as [self log]. rewrite reset_eq.
  destruct (seed_rejection seed); [discriminate|]. cbv zeta.
  intros Hreset Hstep.
  destruct (_convert_jax_to_numpy _) as [o0|] eqn:Hconv;
    simpl in Hreset; [|discriminate].
  inversion Hreset; subst. clear Hreset.
  rewrite step_eq in Hstep.
  destruct (check_action rt _ a) as [a'|]; [|discriminate].
  match type of Hstep with
  | advance rt a' (?s, log) = _ =>
      rewrite (@advance_eq _ _ _ _ _ rt a' s log _ eq_refl) in Hstep
  end.
  cbv zeta in Hstep.
  destruct seed; simpl in Hstep, Hconv; rewrite Hconv in Hstep;
    simpl in Hstep;
    (destruct (py_float rt _); simpl in Hstep; [|discriminate]);
    (destruct (py_bool rt _); simpl in Hstep; [|discriminate]);
    inversion Hstep; reflexivity.
Qed.

(** X5.  A [reset] with a valid seed forgets the past: on any two
    adapters over the same function bundle, whatever calls they have seen,
    [reset(seed=s)] returns the same observation and info (or raises the
    same error) and leaves the same state and the same random stream. *)
Theorem seeded_reset_forgets_history (s : Z) (w1 w2 : World) :
  valid_seed s = true ->
  func_env (fst w1) = func_env (fst w2) ->
  fst (reset rt (Some s) w1) = fst (reset rt (Some s) w2) /\
  state (fst (snd (reset rt (Some s) w1)))
  = state (fst (snd (reset rt (Some s) w2))) /\
  rng (fst (snd (reset rt (Some s) w1)))
  = rng (fst (snd (reset rt (Some s) w2))).
Proof.
  destruct w1 as [s1 l1], w2 as [s2 l2]. simpl. intros Hs Hfe.
  rewrite !reset_eq, (valid_seed_accepted s Hs). cbv zeta. simpl.
  rewrite Hfe. repeat split.
Qed.

Lemma run_call_state_set (c : call) (w : World) :
  state (fst w) <> None -> state (fst (run_call rt c w)) <> None.
Proof.
  destruct w as [self log]. simpl. intros Hst.
  destruct c as [seed|a| |]; simpl.
  - rewrite reset_eq.
    destruct (seed_rejection seed); simpl; [assumption|discriminate].
  - rewrite step_world_eq.
    destruct (check_action rt self a); [|assumption].
    destruct (state self); simpl; [discriminate|contradiction].
  - rewrite render_eq.
    destruct (is_rgb_array (render_mode self)); [|assumption].
    destruct (state self) eqn:E; simpl; congruence.
  - rewrite close_eq. destruct (render_state self); simpl; assumption.
Qed.

Lemma run_calls_state_set (cs : list call) (w : World) :
  state (fst w) <> None -> state (fst (run_calls rt cs w)) <> None.
Proof.
  revert w. induction cs as [|c cs IH]; intros w Hst; simpl; [assumption|].
  apply IH. now apply run_call_state_set.
Qed.

(** X6.  The state is unset when the constructor returns.  Once [reset]
    has been called with a seed it accepts, or with none -- even if it
    then raised on the conversion of the observation -- the state is set
    and stays set through every later [reset], [step], [render] and
    [close], rejected seeds included. *)
Theorem state_stays_set_after_reset
    (fe : Bundle) (obs_space act_space : Space) (mode : option string) (u : Z)
    (seed : option Z) (cs : list call) (w : World) :
  seed_rejection seed = None ->
  state (fst (JaxEnv_init rt fe obs_space act_space mode u)) = None /\
  exists st : StateType,
    state (fst (run_calls rt (CallReset seed :: cs) w)) = Some st.
Proof.
  intros Hseed. split.
  - unfold JaxEnv_init. destruct (is_rgb_array mode); reflexivity.
  - assert (Hst : state (fst (run_calls rt (CallReset seed :: cs) w)) <> None).
    { simpl. apply run_calls_state_set.
      destruct w as [self log]. rewrite reset_eq, Hseed. simpl. discriminate. }
    destruct (state _) as [st|]; [eauto|contradiction].
Qed.

End AdapterFacts.

(** ** The adapter: rendering and closing                                 *)

Section RenderFacts.

Variables StateType Key InfoType RenderStateType ImageType : Type.
Variable rt : Runtime Key.

Local Abbreviation World := (world StateType Key InfoType RenderStateType ImageType).
Local Abbreviation Self := (JaxEnv StateType Key InfoType RenderStateType ImageType).
Local Abbreviation Bundle := (FuncEnv StateType Key InfoType RenderStateType ImageType).

Lemma releases_app (l1 l2 : list (event RenderStateType)) :
  releases (l1 ++ l2) = (releases l1 + releases l2)%nat.
Proof. unfold releases. now rewrite filter_app, length_app. Qed.

Lemma acquisitions_app (l1 l2 : list (event RenderStateType)) :
  acquisitions (l1 ++ l2) = (acquisitions l1 + acquisitions l2)%nat.
Proof. unfold acquisitions. now rewrite filter_app, length_app. Qed.

Lemma run_call_log (c : call) (w : World) :
  snd (run_call rt c w)
  = match c, render_state (fst w) with
    | CallClose, Some rs => snd w ++ [EvRenderClose rs]
    | _, _ => snd w
    end.
Proof.
  destruct w as [self log]. destruct c as [seed|a| |]; simpl.
  - rewrite reset_eq. destruct (seed_rejection seed); reflexivity.
  - rewrite step_world_eq.
    destruct (check_action rt self a); [|reflexivity].
    destruct (state self); reflexivity.
  - rewrite render_eq.
    destruct (is_rgb_array (render_mode self)); [|reflexivity].
    destruct (state self); reflexivity.
  - rewrite close_eq. destruct (render_state self); reflexivity.
Qed.

Lemma run_call_unsupported (c : call) (w : World) :
  is_rgb_array (render_mode (fst w)) = false ->
  render_state (fst w) = None ->
  is_rgb_array (render_mode (fst (run_call rt c w))) = false /\
  render_state (fst (run_call rt c w)) = None.
Proof.
  destruct w as [self log]. simpl. intros Hm Hrs.
  destruct c as [seed|a| |]; simpl.
  - rewrite reset_eq. destruct (seed_rejection seed); [auto|].
    simpl. destruct seed; auto.
  - rewrite step_world_eq.
    destruct (check_action rt self a); [|auto].
    destruct (state self); simpl; auto.
  - rewrite render_eq, Hm. auto.
  - rewrite close_eq, Hrs. auto.
Qed.

(** X7.  An adapter built with any render mode but "rgb_array" (or with
    none) never holds a render state: after any calls its render state is
    unset and the log of acquisitions and releases is empty, [render]
    raises [NotImplementedError] and [close] returns without doing
    anything. *)
Theorem unsupported_mode_never_holds_a_render_state
    (fe : Bundle) (obs_space act_space : Space) (mode : option string)
    (u : Z) (cs : list call) :
  is_rgb_array mode = false ->
  let w := run_calls rt cs (JaxEnv_init rt fe obs_space act_space mode u) in
  render_state (fst w) = None /\
  snd w = [] /\
  render w = (Err NotImplementedError, w) /\
  close w = (Ok tt, w).
Proof.
  intros Hmode w.
  assert (Hinv : is_rgb_array (render_mode (fst w)) = false /\
                 render_state (fst w) = None /\ snd w = []).
  { unfold w. clear w.
    assert (H0 : is_rgb_array
                   (render_mode (fst (JaxEnv_init rt fe obs_space act_space mode u)))
                 = false /\
                 render_state (fst (JaxEnv_init rt fe obs_space act_space mode u))
                 = None /\
                 snd (JaxEnv_init rt fe obs_space act_space mode u) = []).
    { unfold JaxEnv_init. rewrite Hmode. simpl. auto. }
    revert H0. generalize (JaxEnv_init rt fe obs_space act_space mode u).
    induction cs as [|c cs IH]; intros w0 (Hm & Hrs & Hlog); simpl; [auto|].
    apply IH. destruct (run_call_unsupported c w0 Hm Hrs) as [Hm' Hrs'].
    repeat split; try assumption.
    rewrite run_call_log, Hrs, Hlog. destruct c; reflexivity. }
  destruct Hinv as (Hm & Hrs & Hlog).
  split; [assumption|]. split; [assumption|].
  destruct w as [self log]. simpl in *.
  rewrite render_eq, close_eq, Hm, Hrs. split; reflexivity.
Qed.

(** X8.  [close] never raises, whatever the object.  It releases a held
    render state once and leaves none behind, so calling it again changes
    nothing; it never touches the state or the random stream. *)
Theorem close_is_idempotent_and_never_raises (w : World) :
  fst (close w) = Ok tt /\
  render_state (fst (snd (close w))) = None /\
  close (snd (close w)) = (Ok tt, snd (close w)) /\
  releases (snd (snd (close w)))
  = (releases (snd w)
     + match render_state (fst w) with Some _ => 1 | None => 0 end)%nat /\
  state (fst (snd (close w))) = state (fst w) /\
  rng (fst (snd (close w))) = rng (fst w).
Proof.
  destruct w as [self log]. rewrite close_eq.
  destruct (render_state self) as [rs|] eqn:Hrs; simpl.
  - rewrite close_eq. simpl. rewrite releases_app, Hrs. repeat split.
  - rewrite close_eq, Hrs. simpl. rewrite Nat.add_0_r. repeat split; assumption.
Qed.

(** X9.  Only the constructor calls [render_init] and only [close] calls
    [render_close]: over any calls the number of acquisitions in the log
    does not move, and the number of releases grows by at most the number
    of [close] calls. *)
Theorem render_state_is_released_only_by_close (cs : list call) (w : World) :
  acquisitions (snd (run_calls rt cs w)) = acquisitions (snd w) /\
  (releases (snd w) <= releases (snd (run_calls rt cs w))
   <= releases (snd w) + List.length (filter is_close cs))%nat.
Proof.
  revert w. induction cs as [|c cs IH]; intros w; simpl.
  - split; lia.
  - destruct (IH (run_call rt c w)) as [Ha Hr].
    rewrite Ha. rewrite run_call_log in Hr |- *.
    destruct c; simpl in *; try (split; [reflexivity|lia]).
    destruct (render_state (fst w)).
    + rewrite acquisitions_app, releases_app in *. simpl in *.
      unfold acquisitions, releases in *. simpl in *. split; lia.
    + split; [reflexivity|lia].
Qed.

End RenderFacts.

(** ** The adapter: rendering next to the episode                         *)

Section EpisodeFacts.

Variables StateType Key InfoType RenderStateType ImageType : Type.
Variable rt : Runtime Key.

Local Abbreviation World := (world StateType Key InfoType RenderStateType ImageType).
Local Abbreviation Self := (JaxEnv StateType Key InfoType RenderStateType ImageType).
Local Abbreviation Bundle := (FuncEnv StateType Key InfoType RenderStateType ImageType).

Lemma same_dynamics_refl (w : World) : same_dynamics w w.
Proof. repeat split. Qed.

Lemma same_dynamics_trans (w1 w2 w3 : World) :
  same_dynamics w1 w2 -> same_dynamics w2 w3 -> same_dynamics w1 w3.
Proof.
  intros (A1 & A2 & A3 & A4 & A5) (B1 & B2 & B3 & B4 & B5).
  repeat split; congruence.
Qed.

Lemma check_action_same (a : pyval) (s1 s2 : Self) :
  action_space s1 = action_space s2 ->
  _is_box_action_space s1 = _is_box_action_space s2 ->
  check_action rt s1 a = check_action rt s2 a.
Proof. intros H2 H3. unfold check_action. now rewrite H2, H3. Qed.

Lemma step_same_dynamics (a : pyval) (w1 w2 : World) :
  same_dynamics w1 w2 ->
  fst (step rt a w1) = fst (step rt a w2) /\
  same_dynamics (snd (step rt a w1)) (snd (step rt a w2)).
Proof.
  destruct w1 as [s1 l1], w2 as [s2 l2]. unfold same_dynamics. simpl.
  intros (H1 & H2 & H3 & H4 & H5).
  rewrite !step_eq, (check_action_same a s1 s2 H2 H3).
  destruct (check_action rt s2 a) as [a'|e]; [|simpl; auto 6].
  destruct (state s2) as [st|] eqn:Hst.
  - rewrite (advance_eq rt a' s1 l1 H4).
    rewrite (advance_eq rt a' s2 l2 Hst). cbv zeta. simpl.
    rewrite H1, H5. repeat split; assumption.
  - rewrite (advance_unset rt a' s1 l1 H4).
    rewrite (advance_unset rt a' s2 l2 Hst). simpl.
    rewrite H5. repeat split; congruence.
Qed.

Lemma reset_same_dynamics (seed : option Z) (w1 w2 : World) :
  same_dynamics w1 w2 ->
  fst (reset rt seed w1) = fst (reset rt seed w2) /\
  same_dynamics (snd (reset rt seed w1)) (snd (reset rt seed w2)).
Proof.
  destruct w1 as [s1 l1], w2 as [s2 l2]. unfold same_dynamics. simpl.
  intros (H1 & H2 & H3 & H4 & H5).
  rewrite !reset_eq.
  destruct (seed_rejection seed); [simpl; auto 6|]. cbv zeta. simpl.
  destruct seed; simpl; rewrite H1, ?H5; repeat split; assumption.
Qed.

Lemma render_close_same_dynamics (c : call) (w : World) :
  is_episode_call c = false -> same_dynamics (run_call rt c w) w.
Proof.
  destruct w as [self log]. destruct c as [seed|a| |]; simpl;
    try discriminate; intros _.
  - rewrite render_eq.
    destruct (is_rgb_array (render_mode self)); [|apply same_dynamics_refl].
    destruct (state self) eqn:E; repeat split; simpl; congruence.
  - rewrite close_eq. destruct (render_state self); repeat split.
Qed.

Lemma run_call_same_dynamics (c : call) (w1 w2 : World) :
  same_dynamics w1 w2 ->
  same_dynamics (run_call rt c w1) (run_call rt c w2).
Proof.
  intros H. destruct c as [seed|a| |].
  - apply (reset_same_dynamics seed H).
  - apply (step_same_dynamics a H).
  - eapply same_dynamics_trans;
      [apply (render_close_same_dynamics CallRender w1 eq_refl)|].
    eapply same_dynamics_trans; [exact H|].
    destruct (render_close_same_dynamics CallRender w2 eq_refl)
      as (A1 & A2 & A3 & A4 & A5).
    repeat split; congruence.
  - eapply same_dynamics_trans;
      [apply (render_close_same_dynamics CallClose w1 eq_refl)|].
    eapply same_dynamics_trans; [exact H|].
    destruct (render_close_same_dynamics CallClose w2 eq_refl)
      as (A1 & A2 & A3 & A4 & A5).
    repeat split; congruence.
Qed.

Lemma run_calls_erase (cs : list call) (w1 w2 : World) :
  same_dynamics w1 w2 ->
  same_dynamics (run_calls rt cs w1)
                (run_calls rt (filter is_episode_call cs) w2).
Proof.
  revert w1 w2. induction cs as [|c cs IH]; intros w1 w2 H; simpl;
    [assumption|].
  destruct (is_episode_call c) eqn:Hc; simpl.
  - apply IH. now apply run_call_same_dynamics.
  - apply IH. eapply same_dynamics_trans; [|exact H].
    now apply render_close_same_dynamics.
Qed.

(** X10.  Rendering and closing never disturb the episode.  Take any
    sequence of calls and the same sequence with the [render] and [close]
    calls removed: both leave the same state and the same random stream,
    and the next [step] or [reset] returns the same result after either. *)
Theorem rendering_never_disturbs_the_episode
    (cs : list call) (w : World) (a : pyval) (seed : option Z) :
  let v1 := run_calls rt cs w in
  let v2 := run_calls rt (filter is_episode_call cs) w in
  state (fst v1) = state (fst v2) /\
  rng (fst v1) = rng (fst v2) /\
  fst (step rt a v1) = fst (step rt a v2) /\
  fst (reset rt seed v1) = fst (reset rt seed v2).
Proof.
  intros v1 v2.
  pose proof (run_calls_erase cs (same_dynamics_refl w)) as H.
  fold v1 v2 in H.
  split; [apply H|]. split; [apply H|]. split.
  - apply (step_same_dynamics a H).
  - apply (reset_same_dynamics seed H).
Qed.

(** X11.  [close] is not final in image-array mode.  A [render] after
    [close] hands no render state to the bundle's [render_image] and
    stores the one it returns, so the adapter holds a render state again
    and the next [close] releases that one too. *)
Theorem render_after_close_revives_the_render_state
    (self : Self) (log : list (event RenderStateType)) (st : StateType) :
  is_rgb_array (render_mode self) = true ->
  state self = Some st ->
  let w1 := snd (close (self, log)) in
  let out := render_image (func_env self) st None in
  let w2 := snd (render w1) in
  fst (render w1) = Ok (snd out) /\
  render_state (fst w2) = Some (fst out) /\
  snd (snd (close w2)) = snd w1 ++ [EvRenderClose (fst out)].
Proof.
  intros Hm Hst w1 out w2. unfold w2, w1, out. rewrite close_eq.
  destruct (render_state self) as [rs|] eqn:Hrs;
    cbn [fst snd]; rewrite render_eq;
    cbn [fst snd render_mode state render_state func_env set_render_state];
    rewrite Hm, Hst, ?Hrs; cbn [fst snd]; rewrite close_eq;
    cbn [fst snd render_state set_render_state]; repeat split.
Qed.

End EpisodeFacts.

(** ** Clipping: the wrappers and the adapter's Box branch                *)

Lemma clip1_nan (x l h : entry) :
  x = NaN \/ l = NaN \/ h = NaN -> NumPy.clip1 x l h = NaN.
Proof.
  unfold NumPy.clip1. intros [ -> | [ -> | -> ] ].
  - simpl. apply NumPyFacts.minimum1_nan_r.
  - rewrite NumPyFacts.maximum1_nan_r. apply NumPyFacts.minimum1_nan_r.
  - reflexivity.
Qed.

Lemma entry_nan_dec (x : entry) : {x = NaN} + {x <> NaN}.
Proof. destruct x; [left; reflexivity|right..]; discriminate. Qed.

Lemma clip1_idempotent (x l h : entry) :
  NumPy.clip1 (NumPy.clip1 x l h) l h = NumPy.clip1 x l h.
Proof.
  destruct (entry_nan_dec x) as [Hx|Hx];
    [rewrite (@clip1_nan x l h) by auto; apply clip1_nan; auto|].
  destruct (entry_nan_dec l) as [Hl|Hl];
    [rewrite (@clip1_nan x l h) by auto; apply clip1_nan; auto|].
  destruct (entry_nan_dec h) as [Hh|Hh];
    [rewrite (@clip1_nan x l h) by auto; apply clip1_nan; auto|].
  destruct (NumPyFacts.maximum1_above Hx Hl) as [Hm Hlm].
  unfold NumPy.clip1.
  rewrite (NumPyFacts.minimum1_eq Hh Hm).
  destruct (entry_leb h (NumPy.maximum1 x l)) eqn:E.
  - rewrite (NumPyFacts.maximum1_eq Hh Hl).
    destruct (entry_leb l h) eqn:E1.
    + rewrite (NumPyFacts.minimum1_eq Hh Hh).
      now rewrite (NumPyFacts.entry_leb_refl Hh).
    + rewrite (NumPyFacts.minimum1_eq Hh Hl).
      now rewrite (NumPyFacts.entry_leb_total Hl Hh E1).
  - rewrite (NumPyFacts.maximum1_eq Hm Hl), Hlm.
    rewrite (NumPyFacts.minimum1_eq Hh Hm). now rewrite E.
Qed.

Lemma clip_data_idempotent (a lo hi : list entry) :
  NumPy.clip_data (NumPy.clip_data a lo hi) lo hi = NumPy.clip_data a lo hi.
Proof.
  revert lo hi. induction a as [|x a IH]; intros [|l lo] [|h hi]; simpl;
    try reflexivity.
  now rewrite clip1_idempotent, IH.
Qed.

Lemma clip_data_length (a lo hi : list entry) :
  length a = length lo -> length lo = length hi ->
  length (NumPy.clip_data a lo hi) = length a.
Proof.
  revert lo hi. induction a as [|x a IH]; intros [|l lo] [|h hi] H1 H2;
    simpl in *; try discriminate; try reflexivity.
  f_equal. apply IH; lia.
Qed.

Lemma clip1_clamped (x l h : entry) :
  x <> NaN -> entry_le l h -> clamped l x h (NumPy.clip1 x l h).
Proof.
  unfold entry_le. intros Hx Hlh.
  destruct (NumPyFacts.entry_le_no_nan _ _ Hlh) as [Hl Hh].
  pose proof (NumPyFacts.entry_leb_refl Hx) as Rx.
  pose proof (NumPyFacts.entry_leb_refl Hl) as Rl.
  pose proof (NumPyFacts.entry_leb_refl Hh) as Rh.
  unfold clamped, entry_lt, entry_le, entry_eqv, NumPy.clip1.
  rewrite (NumPyFacts.maximum1_eq Hx Hl).
  destruct (entry_leb l x) eqn:E1.
  - rewrite (NumPyFacts.minimum1_eq Hh Hx).
    destruct (entry_leb h x) eqn:E2.
    + destruct (entry_leb x h) eqn:E3.
      * right. right. auto.
      * right. left. auto.
    + right. right.
      pose proof (NumPyFacts.entry_leb_total Hh Hx E2) as E3. auto.
  - pose proof (NumPyFacts.entry_leb_total Hl Hx E1) as E3.
    left. split; [auto|].
    rewrite (NumPyFacts.minimum1_eq Hh Hl).
    destruct (entry_leb h l) eqn:E2; auto.
Qed.

Lemma clip_data_clamped (a lo hi : list entry) :
  length a = length lo -> no_nan a -> Forall2 entry_le lo hi ->
  clamped_all lo a hi (NumPy.clip_data a lo hi).
Proof.
  intros Hlen Hnan H. revert a Hlen Hnan.
  induction H as [|l h lo hi Hlh _ IH]; intros [|x a] Hlen Hnan; simpl in *;
    try discriminate.
  - exact I.
  - inversion Hnan; subst.
    split; [now apply clip1_clamped|]. apply IH; [lia|assumption].
Qed.

(** Clipping an array of the shape of the bounds. *)
Lemma clip_conforming (lo hi a : ndarray) :
  shape lo = shape hi -> well_shaped lo -> well_shaped hi ->
  shape a = shape lo -> well_shaped a ->
  NumPy.clip (NpArray a) lo hi
  = Ok (NpArray (mk_ndarray (shape a)
                   (NumPy.clip_data (data a) (data lo) (data hi)))).
Proof.
  intros Hs Hlo Hhi Hsa Ha. simpl.
  rewrite NumPyFacts.clip_array_conforming by assumption. reflexivity.
Qed.

Lemma transform_eq (w : ClipAction.AnyWrapper) (b : BoxSpace) (a : pyval) :
  ClipAction.wrapper_action_space w = Box b ->
  ClipAction.transform w a = NumPy.clip a (low b) (high b).
Proof.
  intros Hsp. destruct w as [w|w]; simpl in *;
    unfold ClipAction.action, ClipAction.actions; rewrite Hsp; reflexivity.
Qed.

(** X12.  Over a Box with lower bounds not above the upper ones, the clip
    wrapper clamps a floating-point action array of the shape of the space
    that has no NaN entry, entry by entry: an entry below its lower bound
    becomes that bound, an entry above its upper bound becomes that bound,
    and an entry in between is returned as the same number -- each entry
    on its own, whatever the other entries are. *)
Theorem clip_action_clamps_each_entry
    (w : ClipAction.AnyWrapper) (b : BoxSpace) (a : ndarray) :
  ClipAction.wrapper_action_space w = Box b ->
  box_wf b ->
  conforms b a ->
  no_nan (data a) ->
  exists a' : ndarray,
    ClipAction.transform w (NpArray a) = Ok (NpArray a') /\
    shape a' = shape a /\
    clamped_all (data (low b)) (data a) (data (high b)) (data a').
Proof.
  intros Hsp (Hs & Hlo & Hhi & Hle) (Hsa & Ha) Hnan.
  exists (mk_ndarray (shape a)
            (NumPy.clip_data (data a) (data (low b)) (data (high b)))).
  split; [|split; [reflexivity|]].
  - rewrite (transform_eq w _ Hsp). now apply clip_conforming.
  - simpl. apply clip_data_clamped; try assumption.
    unfold well_shaped in *. congruence.
Qed.

(** X13.  Clipping is idempotent: what the clip wrapper returned for an
    action of the shape of the space, it returns unchanged when given it
    again -- whether or not the lower bounds lie below the upper ones. *)
Theorem clipping_twice_is_clipping_once
    (w : ClipAction.AnyWrapper) (b : BoxSpace) (a : ndarray) (a1 : pyval) :
  ClipAction.wrapper_action_space w = Box b ->
  shape (low b) = shape (high b) ->
  well_shaped (low b) -> well_shaped (high b) ->
  conforms b a ->
  ClipAction.transform w (NpArray a) = Ok a1 ->
  ClipAction.transform w a1 = Ok a1.
Proof.
  intros Hsp Hs Hlo Hhi (Hsa & Ha) H1.
  rewrite (transform_eq w (NpArray a) Hsp) in H1.
  rewrite (transform_eq w a1 Hsp).
  rewrite (clip_conforming Hs Hlo Hhi Hsa Ha) in H1.
  inversion H1; subst. clear H1.
  rewrite clip_conforming; simpl; try assumption.
  - now rewrite clip_data_idempotent.
  - unfold well_shaped in *. simpl.
    rewrite clip_data_length; congruence.
Qed.

(** X14.  The factory builds a wrapper only around Box action spaces: for
    a vector environment both the batched and the single-instance space
    must be Boxes, and any other space fails the constructor's assertion.
    A wrapper that was built therefore always finds its bounds: its
    per-step transform is [np.clip] with the bounds of that Box. *)
Theorem ClipAction_is_built_only_over_box_spaces (e : ClipAction.AnyEnv) :
  match e with
  | ClipAction.Single s =>
      match ClipAction.action_space s with
      | Box b =>
          exists w, ClipAction.ClipAction e = Ok w /\
                    forall a, ClipAction.transform w a
                              = NumPy.clip a (low b) (high b)
      | _ => ClipAction.ClipAction e = Err (AssertionError [])
      end
  | ClipAction.Vector v =>
      match ClipAction.vec_action_space v, ClipAction.single_action_space v with
      | Box b, Box _ =>
          exists w, ClipAction.ClipAction e = Ok w /\
                    forall a, ClipAction.transform w a
                              = NumPy.clip a (low b) (high b)
      | _, _ => ClipAction.ClipAction e = Err (AssertionError [])
      end
  end.
Proof.
  destruct e as [s|v]; simpl;
    unfold ClipAction._ClipAction_init, ClipAction._VectorClipAction_init.
  - destruct (ClipAction.action_space s) as [b| | |] eqn:E; simpl;
      try reflexivity.
    eexists. split; [reflexivity|]. intros a.
    apply transform_eq. simpl. exact E.
  - destruct (ClipAction.vec_action_space v) as [b| | |] eqn:E; simpl;
      try reflexivity.
    destruct (ClipAction.single_action_space v) as [b'| | |] eqn:E';
      simpl; try reflexivity.
    eexists. split; [reflexivity|]. intros a.
    apply transform_eq. simpl. exact E.
Qed.

Section BoxBranch.

Variables StateType Key InfoType RenderStateType ImageType : Type.
Variable rt : Runtime Key.

(** X15.  Over a Box action space with lower bounds not above the upper
    ones, a floating-point action array of the shape of the space that has
    no NaN entry never reaches the transition function out of bounds:
    [step] goes on with the clamped array, whose entries all lie within
    the bounds, and never with the action as given. *)
Theorem box_step_hands_the_transition_a_clipped_action
    (self : JaxEnv StateType Key InfoType RenderStateType ImageType)
    (log : list (event RenderStateType)) (b : BoxSpace) (x : ndarray) :
  flag_consistent self ->
  action_space self = Box b ->
  box_wf b ->
  conforms b x ->
  no_nan (data x) ->
  exists x' : ndarray,
    check_action rt self (NpArray x) = Ok (NpArray x') /\
    shape x' = shape x /\
    within (data (low b)) (data x') (data (high b)) /\
    clamped_all (data (low b)) (data x) (data (high b)) (data x') /\
    step rt (NpArray x) (self, log) = advance rt (NpArray x') (self, log).
Proof.
  intros Hflag Hsp (Hs & Hlo & Hhi & Hle) (Hsx & Hx) Hnan.
  exists (mk_ndarray (shape x)
            (NumPy.clip_data (data x) (data (low b)) (data (high b)))).
  assert (Hchk : check_action rt self (NpArray x)
                 = Ok (NpArray (mk_ndarray (shape x)
                      (NumPy.clip_data (data x) (data (low b)) (data (high b)))))).
  { unfold check_action. rewrite Hflag, Hsp. cbn [isinstance_Box].
    now apply clip_conforming. }
  assert (Hlen : length (data x) = length (data (low b))).
  { unfold well_shaped in *. congruence. }
  split; [exact Hchk|]. split; [reflexivity|]. split; [|split].
  - simpl. now apply NumPyFacts.clip_data_within.
  - simpl. now apply clip_data_clamped.
  - rewrite step_eq, Hchk. reflexivity.
Qed.

End BoxBranch.

(** ** The normalizer on its own output                                   *)

Section ConvertAgain.

Local Abbreviation cannot_convert x :=
  (TypeError [Lit "Cannot convert "; FStr x; Lit " to numpy"]).

(** What a second conversion does to the result [w] of converting [v]. *)
Local Abbreviation second_outcome v w :=
  ((array_free v = true /\ w = v /\ _convert_jax_to_numpy w = Ok w) \/
   (array_free v = false /\
    exists a, occurs_in (JaxArray a) v /\
              _convert_jax_to_numpy w = Err (cannot_convert (NpArray a)))).

Lemma mapM_ok_cons {A B} (f : A -> result B) (x : A) (l : list A)
    (ys : list B) :
  mapM f (x :: l) = Ok ys ->
  exists y ys', f x = Ok y /\ mapM f l = Ok ys' /\ ys = y :: ys'.
Proof.
  simpl. destruct (f x) as [y|]; simpl; [|discriminate].
  destruct (mapM f l) as [ys'|]; simpl; [|discriminate].
  intros H. inversion H. eauto.
Qed.

Lemma mapM_second (es : list pyval) :
  Forall (fun e => forall w, _convert_jax_to_numpy e = Ok w -> second_outcome e w) es ->
  forall ws, mapM _convert_jax_to_numpy es = Ok ws ->
    (forallb array_free es = true /\ ws = es /\
     mapM _convert_jax_to_numpy ws = Ok ws) \/
    (forallb array_free es = false /\
     exists e a, In e es /\ occurs_in (JaxArray a) e /\
                 mapM _convert_jax_to_numpy ws = Err (cannot_convert (NpArray a))).
Proof.
  induction 1 as [|e es He _ IH]; intros ws Hws.
  - simpl in Hws. inversion Hws. left. repeat split.
  - apply mapM_ok_cons in Hws. destruct Hws as (y & ys & Hy & Hys & ->).
    destruct (He y Hy) as [(Hf & -> & Hc)|(Hf & a & Ha & Hc)];
      simpl; rewrite Hf, Hc; simpl.
    + destruct (IH ys Hys) as [(Hfs & -> & Hcs)|(Hfs & e' & a & Hin & Ha & Hcs)];
        rewrite Hcs; simpl.
      * left. repeat split. assumption.
      * right. split; [assumption|]. exists e', a. auto.
    + right. split; [reflexivity|]. exists e, a. auto.
Qed.

Lemma mapM_dict_second (kvs : list (string * pyval)) :
  Forall (fun kv => forall w, _convert_jax_to_numpy (snd kv) = Ok w ->
                              second_outcome (snd kv) w) kvs ->
  forall kws,
    mapM (fun kv => rmap (pair (fst kv)) (_convert_jax_to_numpy (snd kv))) kvs
    = Ok kws ->
    (forallb (fun kv => array_free (snd kv)) kvs = true /\ kws = kvs /\
     mapM (fun kv => rmap (pair (fst kv)) (_convert_jax_to_numpy (snd kv))) kws
     = Ok kws) \/
    (forallb (fun kv => array_free (snd kv)) kvs = false /\
     exists kv a, In kv kvs /\ occurs_in (JaxArray a) (snd kv) /\
       mapM (fun kv => rmap (pair (fst kv)) (_convert_jax_to_numpy (snd kv))) kws
       = Err (cannot_convert (NpArray a))).
Proof.
  induction 1 as [|[k v] kvs He _ IH]; intros kws Hws.
  - simpl in Hws. inversion Hws. left. repeat split.
  - apply mapM_ok_cons in Hws. destruct Hws as (y & ys & Hy & Hys & ->).
    simpl in Hy, He.
    destruct (_convert_jax_to_numpy v) as [w|] eqn:Hv; simpl in Hy;
      [|discriminate].
    inversion Hy; subst y. clear Hy.
    destruct (He w eq_refl) as [(Hf & -> & Hc)|(Hf & a & Ha & Hc)];
      simpl; rewrite Hf, Hc; simpl.
    + destruct (IH ys Hys) as [(Hfs & -> & Hcs)|(Hfs & e' & a & Hin & Ha & Hcs)];
        rewrite Hcs; simpl.
      * left. repeat split. assumption.
      * right. split; [assumption|]. exists e', a. auto.
    + right. split; [reflexivity|]. exists (k, v), a. auto.
Qed.

Lemma convert_second (v : pyval) :
  forall w, _convert_jax_to_numpy v = Ok w -> second_outcome v w.
Proof.
  induction v as [a|a|es IH|es IH|kvs IH| | | |] using pyval_ind';
    intros w Hw; simpl in Hw; try discriminate.
  - inversion Hw; subst. right. split; [reflexivity|].
    exists a. split; [constructor|reflexivity].
  - destruct (mapM _convert_jax_to_numpy es) as [ws|] eqn:Hws;
      simpl in Hw; [|discriminate].
    inversion Hw; subst. clear Hw.
    destruct (mapM_second IH Hws) as [(Hf & -> & Hc)|(Hf & e & a & Hin & Ha & Hc)].
    + left. simpl. rewrite Hc. auto.
    + right. simpl. rewrite Hc. split; [assumption|].
      exists a. split; [eapply occ_tuple; eassumption|reflexivity].
  - destruct (mapM _convert_jax_to_numpy es) as [ws|] eqn:Hws;
      simpl in Hw; [|discriminate].
    inversion Hw; subst. clear Hw.
    destruct (mapM_second IH Hws) as [(Hf & -> & Hc)|(Hf & e & a & Hin & Ha & Hc)].
    + left. simpl. rewrite Hc. auto.
    + right. simpl. rewrite Hc. split; [assumption|].
      exists a. split; [eapply occ_list; eassumption|reflexivity].
  - destruct (mapM _ kvs) as [kws|] eqn:Hws; simpl in Hw; [|discriminate].
    inversion Hw; subst. clear Hw.
    destruct (mapM_dict_second IH Hws) as [(Hf & -> & Hc)|(Hf & e & a & Hin & Ha & Hc)].
    + left. simpl. rewrite Hc. auto.
    + right. simpl. rewrite Hc. split; [assumption|].
      exists a. split; [eapply occ_dict; eassumption|reflexivity].
Qed.

(** X16.  The normalizer does not accept its own output.  When converting
    [v] returned [w], converting [w] again raises the type error naming a
    NumPy array that took the place of a JAX array of [v]; the only
    results it converts again, and then returns unchanged, are those of
    values that hold no array at all (nested empty containers). *)
Theorem convert_rejects_its_own_output (v w : pyval) :
  _convert_jax_to_numpy v = Ok w ->
  (array_free v = true /\ w = v /\ _convert_jax_to_numpy w = Ok w) \/
  (array_free v = false /\
   exists a, occurs_in (JaxArray a) v /\
             _convert_jax_to_numpy w = Err (cannot_convert (NpArray a))).
Proof. apply convert_second. Qed.

End ConvertAgain.

(** ** What [reset] returns                                               *)

Section ResetReturns.

Variables StateType Key InfoType RenderStateType ImageType : Type.
Variable rt : Runtime Key.

(** X17.  When [reset] returns, it returns the observation and the info
    of the state it leaves in the adapter -- unlike [step] -- and the
    observation is the bundle's with every JAX array turned into a NumPy
    array, containers and keys as they were. *)
Theorem reset_returns_the_observation_of_the_new_state
    (seed : option Z)
    (w w' : world StateType Key InfoType RenderStateType ImageType)
    (obs : pyval) (info : InfoType) :
  reset rt seed w = (Ok (obs, info), w') ->
  exists st : StateType,
    state (fst w') = Some st /\
    func_env (fst w') = func_env (fst w) /\
    normalized (observation (func_env (fst w)) st) obs /\
    info = state_info (func_env (fst w)) st.
Proof.
  destruct w as [self log]. rewrite reset_eq.
  destruct (seed_rejection seed); [discriminate|]. cbv zeta. intros H.
  match type of H with
  | (rmap _ (_convert_jax_to_numpy (observation _ ?s)), _) = _ => exists s
  end.
  destruct (convert_outcome (observation (func_env self)
              (initial (func_env self)
                 (fst (split rt (rng match seed with
                                     | Some s => set_rng (PRNGKey rt s) self
                                     | None => self
                                     end))))))
    as [(_ & o & Ho & Hn)|(_ & x & _ & _ & Hx)].
  - rewrite Ho in H. simpl in H. inversion H; subst. simpl.
    destruct seed; repeat split; assumption.
  - rewrite Hx in H. discriminate.
Qed.

End ResetReturns.

(** ** The further properties on concrete runs                            *)

Lemma step_commits_before_it_converts_witness :
  let w := snd (reset Toy.runtime (Some 7%Z) (Scenarios.scalar_obs_env 0)) in
  let e := TypeError [Lit "Cannot convert "; FStr (PyFloat 5); Lit " to numpy"] in
  (check_action Toy.runtime (fst w) (PyInt 1) = Ok (PyInt 1) /\
   state (fst w) = Some 5%Z /\
   _convert_jax_to_numpy (observation (func_env (fst w)) 5%Z) = Err e) /\
  fst (step Toy.runtime (PyInt 1) (fst w, snd w)) = Err e /\
  state (fst (snd (step Toy.runtime (PyInt 1) (fst w, snd w)))) = Some 6%Z.
Proof.
  split; [repeat split|]. split.
  - apply (proj2 (proj2 (@step_commits_before_it_converts
                           Z Z Z nat Z Toy.runtime (PyInt 1)
                           (fst (snd (reset Toy.runtime (Some 7%Z)
                                        (Scenarios.scalar_obs_env 0))))
                           [])) (PyInt 1) 5%Z);
      reflexivity.
  - reflexivity.
Defined.

Lemma first_step_repeats_the_reset_observation_witness :
  let w1 := snd (reset Toy.runtime (Some 7%Z) (Toy.discrete_env 0)) in
  (reset Toy.runtime (Some 7%Z) (Toy.discrete_env 0)
   = (Ok (NpArray (mk_ndarray [1%nat] [5]), 5%Z), w1) /\
   step Toy.runtime (PyInt 2) w1
   = (Ok (NpArray (mk_ndarray [1%nat] [5]), 2, false, false, 7%Z),
      snd (step Toy.runtime (PyInt 2) w1))) /\
  NpArray (mk_ndarray [1%nat] [5]) = NpArray (mk_ndarray [1%nat] [5]).
Proof.
  split; [split; reflexivity|].
  apply (@first_step_repeats_the_reset_observation
           Z Z Z nat Z Toy.runtime (Some 7%Z) (PyInt 2)
           (Toy.discrete_env 0)
           (snd (reset Toy.runtime (Some 7%Z) (Toy.discrete_env 0)))
           (snd (step Toy.runtime (PyInt 2)
                   (snd (reset Toy.runtime (Some 7%Z) (Toy.discrete_env 0)))))
           (NpArray (mk_ndarray [1%nat] [5])) (NpArray (mk_ndarray [1%nat] [5]))
           5%Z 7%Z 2 false false);
    reflexivity.
Defined.

Lemma seeded_reset_forgets_history_witness :
  let w1 := Toy.discrete_env 0 in
  let w2 := snd (step Toy.runtime (PyInt 2)
                   (snd (reset Toy.runtime None (Toy.rgb_env 5)))) in
  (valid_seed 7 = true /\ func_env (fst w1) = func_env (fst w2)) /\
  fst (reset Toy.runtime (Some 7%Z) w1) = fst (reset Toy.runtime (Some 7%Z) w2) /\
  state (fst (snd (reset Toy.runtime (Some 7%Z) w1)))
  = state (fst (snd (reset Toy.runtime (Some 7%Z) w2))) /\
  rng (fst (snd (reset Toy.runtime (Some 7%Z) w1)))
  = rng (fst (snd (reset Toy.runtime (Some 7%Z) w2))).
Proof.
  split; [split; reflexivity|].
  apply (@seeded_reset_forgets_history Z Z Z nat Z Toy.runtime 7%Z
           (Toy.discrete_env 0)
           (snd (step Toy.runtime (PyInt 2)
                   (snd (reset Toy.runtime None (Toy.rgb_env 5))))));
    reflexivity.
Defined.

Lemma state_stays_set_after_reset_witness :
  let cs := [CallStep (PyInt 1); CallReset (Some (-1)%Z); CallClose] in
  seed_rejection (Some 7%Z) = None /\
  fst (reset Toy.runtime (Some 7%Z) (Scenarios.scalar_obs_env 0))
  = Err (TypeError [Lit "Cannot convert "; FStr (PyFloat 5); Lit " to numpy"]) /\
  state (fst (JaxEnv_init Toy.runtime Scenarios.scalar_obs
                (Box Toy.unit_box) (Discrete 3 0) None 0)) = None /\
  exists st : Z,
    state (fst (run_calls Toy.runtime (CallReset (Some 7%Z) :: cs)
                  (Scenarios.scalar_obs_env 0))) = Some st.
Proof.
  split; [reflexivity|]. split; [reflexivity|].
  apply (@state_stays_set_after_reset
           Z Z Z nat Z Toy.runtime Scenarios.scalar_obs
           (Box Toy.unit_box) (Discrete 3 0) None 0 (Some 7%Z)
           [CallStep (PyInt 1); CallReset (Some (-1)%Z); CallClose]
           (Scenarios.scalar_obs_env 0)).
  reflexivity.
Defined.

Lemma reset_with_seed_is_deterministic_witness :
  valid_seed 7 = true /\
  reset Toy.runtime (Some 7%Z) (Toy.discrete_env 0)
  = reset Toy.runtime (Some 7%Z) (Toy.discrete_env 1) /\
  fst (reset Toy.runtime (Some 7%Z) (Toy.discrete_env 0))
  = (let st := initial Toy.counter
                 (fst (split Toy.runtime (PRNGKey Toy.runtime 7))) in
     rmap (fun o => (o, state_info Toy.counter st))
          (_convert_jax_to_numpy (observation Toy.counter st))).
Proof.
  split; [reflexivity|].
  apply (@reset_with_seed_is_deterministic
           Z Z Z nat Z Toy.runtime Toy.counter (Box Toy.unit_box)
           (Discrete 3 0) None 0 1 7).
  reflexivity.
Defined.

(** A negative seed is refused by the base class and a seed beyond the
    64-bit range by the key constructor; either way nothing is assigned. *)
Example reset_rejects_invalid_seeds :
  reset Toy.runtime (Some (-1)%Z) (Toy.discrete_env 0)
  = (Err (GymnasiumError
            [Lit "Seed must be a non-negative integer or omitted, not ";
             FStr (PyInt (-1))]),
     Toy.discrete_env 0) /\
  reset Toy.runtime (Some (2 ^ 63)%Z) (Toy.discrete_env 0)
  = (Err OverflowError, Toy.discrete_env 0).
Proof. split; reflexivity. Qed.

Lemma unsupported_mode_never_holds_a_render_state_witness :
  let cs := [CallReset (Some 7%Z); CallRender; CallStep (PyInt 2); CallClose;
             CallRender] in
  is_rgb_array (Some "human"%string) = false /\
  let w := run_calls Toy.runtime cs (Scenarios.human_env 0) in
  render_state (fst w) = None /\
  snd w = [] /\
  render w = (Err NotImplementedError, w) /\
  close w = (Ok tt, w).
Proof.
  split; [reflexivity|].
  apply (@unsupported_mode_never_holds_a_render_state
           Z Z Z nat Z Toy.runtime Toy.counter (Box Toy.unit_box) (Discrete 3 0)
           (Some "human"%string) 0
           [CallReset (Some 7%Z); CallRender; CallStep (PyInt 2); CallClose;
            CallRender]).
  reflexivity.
Defined.

Lemma render_after_close_revives_the_render_state_witness :
  let w := snd (reset Toy.runtime (Some 7%Z) (Toy.rgb_env 0)) in
  (is_rgb_array (render_mode (fst w)) = true /\ state (fst w) = Some 5%Z) /\
  let w1 := snd (close (fst w, snd w)) in
  let out := render_image (func_env (fst w)) 5%Z None in
  let w2 := snd (render w1) in
  fst (render w1) = Ok (snd out) /\
  render_state (fst w2) = Some (fst out) /\
  snd (snd (close w2)) = snd w1 ++ [EvRenderClose (fst out)].
Proof.
  split; [split; reflexivity|].
  apply (@render_after_close_revives_the_render_state
           Z Z Z nat Z
           (fst (snd (reset Toy.runtime (Some 7%Z) (Toy.rgb_env 0))))
           (snd (snd (reset Toy.runtime (Some 7%Z) (Toy.rgb_env 0))))
           5%Z);
    reflexivity.
Defined.

Lemma clip_action_clamps_each_entry_witness :
  exists a' : ndarray,
    ClipAction.transform
      (ClipAction.WSingle
         (ClipAction.mk_ClipAction (ClipAction.mk_Env (Box Toy.unit_box))))
      (NpArray (mk_ndarray [4%nat] [5; 2; -10; 0])) = Ok (NpArray a') /\
    shape a' = [4%nat] /\
    clamped_all [-1; -1; -1; -1] [5; 2; -10; 0] [1; 1; 1; 1] (data a').
Proof.
  apply (@clip_action_clamps_each_entry
           (ClipAction.WSingle
              (ClipAction.mk_ClipAction (ClipAction.mk_Env (Box Toy.unit_box))))
           Toy.unit_box (mk_ndarray [4%nat] [5; 2; -10; 0])).
  - reflexivity.
  - unfold box_wf, well_shaped. simpl.
    repeat split; repeat constructor; reflexivity.
  - split; reflexivity.
  - repeat constructor; discriminate.
Defined.

Lemma clipping_twice_is_clipping_once_witness :
  let w := ClipAction.WVector
             (ClipAction.mk_VectorClipAction
                (ClipAction.mk_VectorEnv (Box Toy.unit_box) (Box Toy.unit_box) 1)) in
  let a1 := NpArray (mk_ndarray [4%nat] [1; 1; -1; 0]) in
  ClipAction.transform w (NpArray (mk_ndarray [4%nat] [5; 2; -10; 0])) = Ok a1 /\
  ClipAction.transform w a1 = Ok a1.
Proof.
  split; [reflexivity|].
  apply (@clipping_twice_is_clipping_once
           (ClipAction.WVector
              (ClipAction.mk_VectorClipAction
                 (ClipAction.mk_VectorEnv (Box Toy.unit_box) (Box Toy.unit_box) 1)))
           Toy.unit_box (mk_ndarray [4%nat] [5; 2; -10; 0])
           (NpArray (mk_ndarray [4%nat] [1; 1; -1; 0])));
    try reflexivity.
  split; reflexivity.
Defined.

Lemma box_step_hands_the_transition_a_clipped_action_witness :
  let w := snd (reset Toy.runtime (Some 7%Z) (Scenarios.box_env 0)) in
  let x := mk_ndarray [4%nat] [5; 2; -10; 0] in
  exists x' : ndarray,
    check_action Toy.runtime (fst w) (NpArray x) = Ok (NpArray x') /\
    shape x' = shape x /\
    within [-1; -1; -1; -1] (data x') [1; 1; 1; 1] /\
    clamped_all [-1; -1; -1; -1] (data x) [1; 1; 1; 1] (data x') /\
    step Toy.runtime (NpArray x) (fst w, snd w)
    = advance Toy.runtime (NpArray x') (fst w, snd w).
Proof.
  apply (@box_step_hands_the_transition_a_clipped_action
           Z Z Z nat Z Toy.runtime
           (fst (snd (reset Toy.runtime (Some 7%Z) (Scenarios.box_env 0))))
           (snd (snd (reset Toy.runtime (Some 7%Z) (Scenarios.box_env 0))))
           Toy.unit_box (mk_ndarray [4%nat] [5; 2; -10; 0])).
  - reflexivity.
  - reflexivity.
  - unfold box_wf, well_shaped. simpl.
    repeat split; repeat constructor; reflexivity.
  - split; reflexivity.
  - repeat constructor; discriminate.
Defined.

Lemma convert_rejects_its_own_output_witness :
  let v := PyTuple [PyList []; JaxArray (mk_ndarray [1%nat] [3])] in
  let w := PyTuple [PyList []; NpArray (mk_ndarray [1%nat] [3])] in
  _convert_jax_to_numpy v = Ok w /\
  ((array_free v = true /\ w = v /\ _convert_jax_to_numpy w = Ok w) \/
   (array_free v = false /\
    exists a, occurs_in (JaxArray a) v /\
              _convert_jax_to_numpy w
              = Err (TypeError [Lit "Cannot convert "; FStr (NpArray a);
                                Lit " to numpy"]))).
Proof.
  split; [reflexivity|].
  apply (@convert_rejects_its_own_output
           (PyTuple [PyList []; JaxArray (mk_ndarray [1%nat] [3])])
           (PyTuple [PyList []; NpArray (mk_ndarray [1%nat] [3])])).
  reflexivity.
Defined.

Lemma reset_returns_the_observation_of_the_new_state_witness :
  let w := Toy.discrete_env 0 in
  let w' := snd (reset Toy.runtime (Some 7%Z) w) in
  reset Toy.runtime (Some 7%Z) w
  = (Ok (NpArray (mk_ndarray [1%nat] [5]), 5%Z), w') /\
  exists st : Z,
    state (fst w') = Some st /\
    func_env (fst w') = func_env (fst w) /\
    normalized (observation (func_env (fst w)) st)
               (NpArray (mk_ndarray [1%nat] [5])) /\
    5%Z = state_info (func_env (fst w)) st.
Proof.
  split; [reflexivity|].
  apply (@reset_returns_the_observation_of_the_new_state
           Z Z Z nat Z Toy.runtime (Some 7%Z) (Toy.discrete_env 0)
           (snd (reset Toy.runtime (Some 7%Z) (Toy.discrete_env 0)))
           (NpArray (mk_ndarray [1%nat] [5])) 5%Z).
  reflexivity.
Defined.
